(** * Onchain Summer backend: the NFT record model and its request handlers

    A shallow embedding of [src/models/NFT.js] (the Mongoose schema, its
    virtuals, statics and pre-save hook) and of [src/controllers/nftController.js]
    (the handlers [saveNFT], [getUserNFTs] and [getEventStats]), with the
    MongoDB collection modelled as a list of documents in insertion order and
    every collection access recorded in a query log. *)

From Stdlib Require Import ZArith List String Ascii Bool Lia Permutation Sorted.
From Stdlib Require Import DecimalString.
Import ListNotations.
Local Open Scope string_scope.
Local Open Scope Z_scope.

(* ===================================================================== *)
(** * JavaScript strings and the regular expressions of the schema *)
(* ===================================================================== *)

(** A character is a UTF-16 code unit below 256 (the Latin-1 range), a string
    a sequence of such units; strings with other code units are outside the
    model. On this range [String.prototype.toLowerCase] changes [A]..[Z] and
    the capital letters 192..222 other than the multiplication sign 215, the
    white space of [parseInt] is 9..13, 32 and the no-break space 160, and
    the line terminators are 10 and 13. *)
Module Js.

Definition is_upper (c : ascii) : bool :=
  let n := nat_of_ascii c in ((65 <=? n) && (n <=? 90))%nat.

Definition is_lower (c : ascii) : bool :=
  let n := nat_of_ascii c in ((97 <=? n) && (n <=? 122))%nat.

Definition is_digit (c : ascii) : bool :=
  let n := nat_of_ascii c in ((48 <=? n) && (n <=? 57))%nat.

(** The character class [[a-fA-F0-9]]. *)
Definition is_hex (c : ascii) : bool :=
  let n := nat_of_ascii c in
  (is_digit c || ((97 <=? n) && (n <=? 102)) || ((65 <=? n) && (n <=? 70)))%nat.

(** The character class [[a-zA-Z0-9]]. *)
Definition is_alnum (c : ascii) : bool :=
  is_lower c || is_upper c || is_digit c.

(** Line terminators, which [.] does not match. *)
Definition is_line_terminator (c : ascii) : bool :=
  let n := nat_of_ascii c in ((n =? 10) || (n =? 13))%nat.

(** White space skipped by [parseInt]. *)
Definition is_space (c : ascii) : bool :=
  let n := nat_of_ascii c in
  (((9 <=? n) && (n <=? 13)) || (n =? 32) || (n =? 160))%nat.

(** The capital letters of the upper half of the range. *)
Definition is_latin1_capital (c : ascii) : bool :=
  let n := nat_of_ascii c in ((192 <=? n) && (n <=? 222) && negb (n =? 215))%nat.

Definition lower_char (c : ascii) : ascii :=
  if is_upper c || is_latin1_capital c then ascii_of_nat (nat_of_ascii c + 32) else c.

Fixpoint toLowerCase (s : string) : string :=
  match s with
  | EmptyString => EmptyString
  | String c r => String (lower_char c) (toLowerCase r)
  end.

Fixpoint all_chars (p : ascii -> bool) (s : string) : bool :=
  match s with
  | EmptyString => true
  | String c r => p c && all_chars p r
  end.

(** [strip_prefix p s] is [Some r] when [s = p ++ r]. *)
Fixpoint strip_prefix (p s : string) : option string :=
  match p with
  | EmptyString => Some s
  | String a p' =>
      match s with
      | EmptyString => None
      | String b s' => if Ascii.eqb a b then strip_prefix p' s' else None
      end
  end.

(** [^<p>[class]{n}$]: the literal [p], then exactly [n] characters of the class. *)
Definition prefix_then_class (p : string) (cls : ascii -> bool) (n : nat) (s : string) : bool :=
  match strip_prefix p s with
  | Some r => (String.length r =? n)%nat && all_chars cls r
  | None => false
  end.

(** [/^0x[a-fA-F0-9]{40}$/] *)
Definition address_re : string -> bool := prefix_then_class "0x" is_hex 40.

(** [/^0x[a-fA-F0-9]{64}$/] *)
Definition txhash_re : string -> bool := prefix_then_class "0x" is_hex 64.

(** [/^Qm[a-zA-Z0-9]{44}$/] *)
Definition cid_re : string -> bool := prefix_then_class "Qm" is_alnum 44.

(** [/^ipfs:\/\/Qm[a-zA-Z0-9]{44}$/] *)
Definition ipfs_uri_re : string -> bool := prefix_then_class "ipfs://Qm" is_alnum 44.

(** [/^https:\/\/.*\.pinata\.cloud\/ipfs\/Qm[a-zA-Z0-9]{44}$/]: after
    [https://], some characters other than line terminators, then the literal
    [.pinata.cloud/ipfs/] and a CID up to the end of the string. *)
Fixpoint dots_then_pinata_cid (s : string) : bool :=
  prefix_then_class ".pinata.cloud/ipfs/Qm" is_alnum 44 s
  || match s with
     | EmptyString => false
     | String c r => negb (is_line_terminator c) && dots_then_pinata_cid r
     end.

Definition pinata_url_re (s : string) : bool :=
  match strip_prefix "https://" s with
  | Some r => dots_then_pinata_cid r
  | None => false
  end.

(** [Number.prototype.toString] on an integer that a double holds exactly
    (magnitude below 2^53). *)
Definition string_of_Z (n : Z) : string := NilZero.string_of_int (Z.to_int n).

(** ** [parseInt] *)

Fixpoint skip_spaces (s : string) : string :=
  match s with
  | String c r => if is_space c then skip_spaces r else s
  | EmptyString => s
  end.

Definition digit_value (c : ascii) : option Z :=
  let n := Z.of_nat (nat_of_ascii c) in
  if is_digit c then Some (n - 48)
  else if is_lower c then Some (n - 87)
  else if is_upper c then Some (n - 55)
  else None.

(** The longest prefix of digits below [radix], accumulated from [acc];
    [seen] tells whether a digit was read. *)
Fixpoint parse_digits (radix : Z) (s : string) (seen : bool) (acc : Z) : option Z :=
  match s with
  | EmptyString => if seen then Some acc else None
  | String c r =>
      match digit_value c with
      | Some d =>
          if d <? radix then parse_digits radix r true (acc * radix + d)
          else if seen then Some acc else None
      | None => if seen then Some acc else None
      end
  end.

(** [parseInt(v)] for a query parameter [v]: [None] stands for [undefined] on
    the input side and for [NaN] on the output side. The result is the
    integer the digits denote; it is the number the code holds as long as
    its magnitude is below 2^53. *)
Definition parseInt (v : option string) : option Z :=
  match v with
  | None => None
  | Some s =>
      let s1 := skip_spaces s in
      let '(sign, s2) :=
        match s1 with
        | String "-" r => (-1, r)
        | String "+" r => (1, r)
        | _ => (1, s1)
        end in
      let '(radix, s3) :=
        match s2 with
        | String "0" (String "x" r) => (16, r)
        | String "0" (String "X" r) => (16, r)
        | _ => (10, s2)
        end in
      match parse_digits radix s3 false 0 with
      | Some n => Some (sign * n)
      | None => None
      end
  end.

(** [parseInt(v) || d]: [NaN] and [0] are falsy. *)
Definition parseInt_or (v : option string) (d : Z) : Z :=
  match parseInt v with
  | Some n => if n =? 0 then d else n
  | None => d
  end.

(** [Math.ceil(a / b)] on integers, [b] not zero. *)
Definition ceil_div (a b : Z) : Z := - ((- a) / b).

End Js.

(* ===================================================================== *)
(** * JSON values of a request body *)
(* ===================================================================== *)

(** What [express.json()] leaves in [req.body]. Numbers are the integers of
    magnitude below 2^53, which [JSON.parse] reads exactly; an absent
    property ([undefined]) is [None] of [option json]. *)
#[warnings="-register-all"]
Inductive json : Type :=
| JNull
| JBool (b : bool)
| JNum (n : Z)
| JStr (s : string)
| JArr (elems : list json)
| JObj (props : list (string * json)).

(** Truthiness of a value ([!v] is its negation): [undefined], [null],
    [false], [0] and the empty string are falsy, everything else is truthy. *)
Definition truthy (v : option json) : bool :=
  match v with
  | None => false
  | Some JNull => false
  | Some (JBool b) => b
  | Some (JNum n) => negb (n =? 0)
  | Some (JStr s) => negb (String.eqb s "")
  | Some (JArr _) => true
  | Some (JObj _) => true
  end.

(** [JSON.parse] keeps the last of several properties of one name. *)
Fixpoint obj_get (props : list (string * json)) (k : string) : option json :=
  match props with
  | [] => None
  | (k', v) :: r =>
      match obj_get r k with
      | Some v' => Some v'
      | None => if String.eqb k' k then Some v else None
      end
  end.

(** [v?.k] for a property name [k] that no string, number, boolean or array
    has of its own ([eventName], [mintedAt], [_id]). *)
Definition opt_chain (v : option json) (k : string) : option json :=
  match v with
  | Some (JObj props) => obj_get props k
  | _ => None
  end.

(** Converting a value to a primitive ([`${v}`], [new Date(v)]) throws a
    [TypeError] for an object with a [toString] property of its own: JSON
    gives it no callable one, and [valueOf] returns the object. An array is
    joined, which converts its elements. *)
Fixpoint to_primitive_throws (v : json) : bool :=
  match v with
  | JObj props =>
      match obj_get props "toString" with
      | Some _ => true
      | None => false
      end
  | JArr elems => existsb to_primitive_throws elems
  | _ => false
  end.

(** [`${v}`]: the string a template literal inserts for a value whose
    conversion does not throw. *)
Fixpoint js_toString (v : json) : string :=
  match v with
  | JNull => "null"
  | JBool true => "true"
  | JBool false => "false"
  | JNum n => Js.string_of_Z n
  | JStr s => s
  | JArr elems =>
      (fix join (l : list json) : string :=
         match l with
         | [] => ""
         | [x] => match x with JNull => "" | _ => js_toString x end
         | x :: r => (match x with JNull => "" | _ => js_toString x end) ++ "," ++ join r
         end) elems
  | JObj _ => "[object Object]"
  end.

Definition template (v : option json) : string :=
  match v with
  | None => "undefined"
  | Some j => js_toString j
  end.

(* ===================================================================== *)
(** * The stored document *)
(* ===================================================================== *)

Inductive Status : Type := pending | confirmed | failed.

Definition Status_eqb (a b : Status) : bool :=
  match a, b with
  | pending, pending | confirmed, confirmed | failed, failed => true
  | _, _ => false
  end.

(** One document of the [NFT] collection; dates are milliseconds since the
    epoch. *)
Record NFT : Type := mkNFT {
  walletAddress : string;
  ipfsCid : string;
  metadataUri : string;
  tokenId : string;
  contractAddress : string;
  transactionHash : string;
  eventName : string;
  mintedAt : Z;
  networkChainId : Z;
  imageUrl : option string;
  status : Status;
  userAgent : option string;
  ipAddress : option string;
  createdAt : Z;
  updatedAt : Z
}.

(** ** Virtuals of the schema *)

(** [nftSchema.virtual('pinataImageUrl')] *)
Definition pinataImageUrl (d : NFT) : option string :=
  if negb (String.eqb (ipfsCid d) "")
  then Some ("https://gateway.pinata.cloud/ipfs/" ++ ipfsCid d)
  else None.

(** [nftSchema.virtual('blockExplorerUrl')] *)
Definition blockExplorerUrl (d : NFT) : string :=
  let baseUrl :=
    if networkChainId d =? 8453
    then "https://basescan.org/tx/"
    else "https://sepolia.basescan.org/tx/" in
  baseUrl ++ transactionHash d.

(* ===================================================================== *)
(** * The collection and the monad of the handlers *)
(* ===================================================================== *)

(** The operations the code sends to the collection. *)
Inductive Query : Type :=
| QFindOne (txHash : string)
| QInsert (doc : NFT)
| QCount (wallet : string)
| QFind (wallet : string) (skip limit : Z)
| QAggregate.

Record World : Type := mkWorld {
  docs : list NFT;        (* the collection, oldest insertion first *)
  queries : list Query    (* the operations issued so far, oldest first *)
}.

Inductive JsError : Type :=
| TypeError (msg : string)
| ValidationError (errors : list (string * string))   (* path, message *)
| MongoServerError (code : Z) (msg : string).

Inductive Outcome (A : Type) : Type :=
| Returned (a : A)
| Thrown (e : JsError).
Arguments Returned {A} a.
Arguments Thrown {A} e.

(** An [async] computation over the collection that may throw. *)
Definition Db (A : Type) : Type := World -> Outcome A * World.

Definition ret {A} (a : A) : Db A := fun w => (Returned a, w).

Definition throw {A} (e : JsError) : Db A := fun w => (Thrown e, w).

Definition bind {A B} (m : Db A) (k : A -> Db B) : Db B :=
  fun w =>
    match m w with
    | (Returned a, w') => k a w'
    | (Thrown e, w') => (Thrown e, w')
    end.

(** [try { m } catch (error) { h error }] *)
Definition try_catch {A} (m : Db A) (h : JsError -> Db A) : Db A :=
  fun w =>
    match m w with
    | (Returned a, w') => (Returned a, w')
    | (Thrown e, w') => h e w'
    end.

Declare Scope db_scope.
Delimit Scope db_scope with db.
Notation "x <- m ;; k" := (bind m (fun x => k))
  (at level 61, m at next level, right associativity) : db_scope.
Local Open Scope db_scope.

Definition issue (q : Query) : Db unit :=
  fun w => (Returned tt, mkWorld (docs w) (queries w ++ [q])).

Definition read_docs : Db (list NFT) := fun w => (Returned (docs w), w).

Definition write_docs (l : list NFT) : Db unit :=
  fun w => (Returned tt, mkWorld l (queries w)).

(* ===================================================================== *)
(** * The Mongoose model [NFT] *)
(* ===================================================================== *)

(** What the process reads from its environment while it serves a request:
    the clock ([Date.now()], [new Date()]), the parser behind
    [new Date(string)], and [process.env.NODE_ENV]. *)
Record Runtime : Type := mkRuntime {
  Date_now : Z;
  Date_parse : string -> option Z;
  NODE_ENV : option string
}.

Module Schema.

(** The outcome of casting a value to the type of its path. *)
Inductive Cast (A : Type) : Type :=
| CastOk (v : A)
| CastAbsent          (* [null] or [undefined] *)
| CastFailed.         (* a [CastError] is recorded for the path *)
Arguments CastOk {A} v.
Arguments CastAbsent {A}.
Arguments CastFailed {A}.

(** The caster of a [String] path: strings as they are, numbers and booleans
    through [toString()], an object through a string [_id], and a
    [CastError] for arrays and other objects. *)
Definition castString (v : option json) : Cast string :=
  match v with
  | None => CastAbsent
  | Some JNull => CastAbsent
  | Some (JStr s) => CastOk s
  | Some (JNum n) => CastOk (Js.string_of_Z n)
  | Some (JBool true) => CastOk "true"
  | Some (JBool false) => CastOk "false"
  | Some (JArr _) => CastFailed
  | Some (JObj props) =>
      match obj_get props "_id" with
      | Some (JStr id) => if String.eqb id "" then CastFailed else CastOk id
      | _ => CastFailed
      end
  end.

(** The setter of [lowercase: true]. *)
Definition lowercase (c : Cast string) : Cast string :=
  match c with
  | CastOk s => CastOk (Js.toLowerCase s)
  | other => other
  end.

(** The time value of [new Date(v)] for a JSON value; [None] when the date
    is invalid or the conversion of [v] to a primitive throws. *)
Definition newDate (rt : Runtime) (v : json) : option Z :=
  match v with
  | JNum n => if Z.abs n <=? 8640000000000000 then Some n else None
  | JBool true => Some 1
  | JBool false => Some 0
  | JNull => Some 0
  | JStr s => Date_parse rt s
  | JArr _ => if to_primitive_throws v then None else Date_parse rt (js_toString v)
  | JObj _ => if to_primitive_throws v then None else Date_parse rt (js_toString v)
  end.

(** The plain object [nftData] that [saveNFT] hands to [new NFT(...)]. *)
Record NftData : Type := mkNftData {
  in_walletAddress : option json;
  in_ipfsCid : option json;
  in_metadataUri : option json;
  in_tokenId : option json;
  in_contractAddress : option json;
  in_transactionHash : option json;
  in_eventName : option json;
  in_mintedAt : option Z;          (* a Date; [None] is an invalid one *)
  in_imageUrl : string;
  in_userAgent : option string;
  in_ipAddress : option string
}.

(** The document [new NFT(nftData)]: every path cast and passed through its
    setters, the paths the handler leaves out at their defaults. *)
Record Document : Type := mkDocument {
  d_walletAddress : Cast string;
  d_ipfsCid : Cast string;
  d_metadataUri : Cast string;
  d_tokenId : Cast string;
  d_contractAddress : Cast string;
  d_transactionHash : Cast string;
  d_eventName : Cast string;
  d_mintedAt : Cast Z;
  d_networkChainId : Z;
  d_imageUrl : string;
  d_status : Status;
  d_userAgent : option string;
  d_ipAddress : option string
}.

Definition new_NFT (data : NftData) : Document :=
  {| d_walletAddress := lowercase (castString (in_walletAddress data));
     d_ipfsCid := castString (in_ipfsCid data);
     d_metadataUri := castString (in_metadataUri data);
     d_tokenId := castString (in_tokenId data);
     d_contractAddress := lowercase (castString (in_contractAddress data));
     d_transactionHash := lowercase (castString (in_transactionHash data));
     d_eventName :=
       match castString (in_eventName data) with
       | CastAbsent => CastOk "Onchain Summer Lagos"
       | c => c
       end;
     d_mintedAt :=
       match in_mintedAt data with
       | Some t => CastOk t
       | None => CastFailed
       end;
     d_networkChainId := 8453;
     d_imageUrl := in_imageUrl data;
     d_status := confirmed;
     d_userAgent := in_userAgent data;
     d_ipAddress := in_ipAddress data |}.

(** ** Validation *)

(** The errors of a document are listed path by path in the order of the
    schema; the order in which Mongoose enumerates [error.errors] and the
    text of its [CastError] messages, which quotes the rejected value, are
    not modelled: a cast error carries a fixed text. *)
Definition cast_failed_message : string := "Cast failed".

(** A [String] path with [required: [true, required_msg]] and, when [re] is
    given, [match: [re, match_msg]]: the first failing validator reports. *)
Definition validate_string (path required_msg : string)
    (re : option ((string -> bool) * string)) (c : Cast string) : list (string * string) :=
  match c with
  | CastFailed => [(path, cast_failed_message)]
  | CastAbsent => [(path, required_msg)]
  | CastOk s =>
      if String.eqb s "" then [(path, required_msg)]
      else match re with
           | Some (test, match_msg) => if test s then [] else [(path, match_msg)]
           | None => []
           end
  end.

(** [enum: ['Onchain Summer Lagos']] *)
Definition validate_eventName (c : Cast string) : list (string * string) :=
  match c with
  | CastFailed => [("eventData.eventName", cast_failed_message)]
  | CastAbsent => []
  | CastOk s =>
      if String.eqb s "Onchain Summer Lagos" then []
      else [("eventData.eventName",
             "`" ++ s ++ "` is not a valid enum value for path `eventData.eventName`.")]
  end.

Definition validate_mintedAt (c : Cast Z) : list (string * string) :=
  match c with
  | CastFailed => [("eventData.mintedAt", cast_failed_message)]
  | CastAbsent => [("eventData.mintedAt", "Mint timestamp is required")]
  | CastOk _ => []
  end.

(** The validator of [imageUrl]: [!v || re.test(v)]. *)
Definition validate_imageUrl (v : string) : list (string * string) :=
  if String.eqb v "" || Js.pinata_url_re v then []
  else [("imageUrl", "Invalid Pinata image URL format")].

Definition validate (d : Document) : list (string * string) :=
  validate_string "walletAddress" "Wallet address is required"
    (Some (Js.address_re, "Invalid Ethereum address format")) (d_walletAddress d)
  ++ validate_string "ipfsCid" "IPFS CID is required"
       (Some (Js.cid_re, "Invalid IPFS CID format")) (d_ipfsCid d)
  ++ validate_string "metadataUri" "Metadata URI is required"
       (Some (Js.ipfs_uri_re, "Invalid IPFS URI format")) (d_metadataUri d)
  ++ validate_string "tokenId" "Token ID is required" None (d_tokenId d)
  ++ validate_string "contractAddress" "Contract address is required"
       (Some (Js.address_re, "Invalid contract address format")) (d_contractAddress d)
  ++ validate_string "transactionHash" "Transaction hash is required"
       (Some (Js.txhash_re, "Invalid transaction hash format")) (d_transactionHash d)
  ++ validate_eventName (d_eventName d)
  ++ validate_mintedAt (d_mintedAt d)
  ++ validate_imageUrl (d_imageUrl d).

Definition cast_value {A} (dflt : A) (c : Cast A) : A :=
  match c with
  | CastOk v => v
  | _ => dflt
  end.

(** [nftSchema.pre('save', ...)]: lowercase the three fields that are set. *)
Definition lower_if_set (s : string) : string :=
  if negb (String.eqb s "") then Js.toLowerCase s else s.

Definition pre_save (d : NFT) : NFT :=
  {| walletAddress := lower_if_set (walletAddress d);
     ipfsCid := ipfsCid d;
     metadataUri := metadataUri d;
     tokenId := tokenId d;
     contractAddress := lower_if_set (contractAddress d);
     transactionHash := lower_if_set (transactionHash d);
     eventName := eventName d;
     mintedAt := mintedAt d;
     networkChainId := networkChainId d;
     imageUrl := imageUrl d;
     status := status d;
     userAgent := userAgent d;
     ipAddress := ipAddress d;
     createdAt := createdAt d;
     updatedAt := updatedAt d |}.

(** The document as it is written, [timestamps: true] filling both dates. *)
Definition to_NFT (rt : Runtime) (d : Document) : NFT :=
  {| walletAddress := cast_value "" (d_walletAddress d);
     ipfsCid := cast_value "" (d_ipfsCid d);
     metadataUri := cast_value "" (d_metadataUri d);
     tokenId := cast_value "" (d_tokenId d);
     contractAddress := cast_value "" (d_contractAddress d);
     transactionHash := cast_value "" (d_transactionHash d);
     eventName := cast_value "" (d_eventName d);
     mintedAt := cast_value 0 (d_mintedAt d);
     networkChainId := d_networkChainId d;
     imageUrl := if String.eqb (d_imageUrl d) "" then None else Some (d_imageUrl d);
     status := d_status d;
     userAgent := d_userAgent d;
     ipAddress := d_ipAddress d;
     createdAt := Date_now rt;
     updatedAt := Date_now rt |}.

End Schema.

(* ===================================================================== *)
(** * Collection operations *)
(* ===================================================================== *)

Module Collection.

(** [NFT.findOne({ transactionHash: h })] *)
Definition findOne (h : string) : Db (option NFT) :=
  _ <- issue (QFindOne h) ;;
  l <- read_docs ;;
  ret (find (fun d => String.eqb (transactionHash d) h) l).

(** The insert behind [doc.save()], under the unique index on
    [transactionHash]: error 11000 when the hash is already there. *)
Definition insertOne (d : NFT) : Db NFT :=
  _ <- issue (QInsert d) ;;
  l <- read_docs ;;
  if existsb (fun x => String.eqb (transactionHash x) (transactionHash d)) l
  then throw (MongoServerError 11000 "E11000 duplicate key error")
  else
    _ <- write_docs (l ++ [d]) ;;
    ret d.

(** The filter [{ walletAddress: w, status: 'confirmed' }]. *)
Definition owned_confirmed (w : string) (d : NFT) : bool :=
  String.eqb (walletAddress d) w && Status_eqb (status d) confirmed.

(** [countDocuments({ walletAddress: w, status: 'confirmed' })] *)
Definition countDocuments (w : string) : Db Z :=
  _ <- issue (QCount w) ;;
  l <- read_docs ;;
  ret (Z.of_nat (List.length (filter (owned_confirmed w) l))).

(** [.sort({ createdAt: -1 })], as a stable insertion sort. The server leaves
    the order of documents with equal [createdAt] open; what is proved of a
    sorted result either uses its sortedness only or assumes distinct
    dates. *)
Fixpoint insert_desc (x : NFT) (l : list NFT) : list NFT :=
  match l with
  | [] => [x]
  | y :: r => if createdAt y <=? createdAt x then x :: y :: r else y :: insert_desc x r
  end.

Fixpoint sort_desc (l : list NFT) : list NFT :=
  match l with
  | [] => []
  | x :: r => insert_desc x (sort_desc r)
  end.

(** [.select('-userAgent -ipAddress')] *)
Definition select_public (d : NFT) : NFT :=
  {| walletAddress := walletAddress d;
     ipfsCid := ipfsCid d;
     metadataUri := metadataUri d;
     tokenId := tokenId d;
     contractAddress := contractAddress d;
     transactionHash := transactionHash d;
     eventName := eventName d;
     mintedAt := mintedAt d;
     networkChainId := networkChainId d;
     imageUrl := imageUrl d;
     status := status d;
     userAgent := None;
     ipAddress := None;
     createdAt := createdAt d;
     updatedAt := updatedAt d |}.

(** [.limit(n)]: zero is no limit, a negative [n] stands for its absolute value. *)
Definition apply_limit (n : Z) (l : list NFT) : list NFT :=
  if n =? 0 then l else firstn (Z.to_nat (Z.abs n)) l.

(** [NFT.find({ walletAddress: w, status: 'confirmed' }).sort({ createdAt: -1 })
      .skip(skip).limit(limit).select('-userAgent -ipAddress').lean()];
    the server refuses a negative skip. *)
Definition find_page (w : string) (skip limit : Z) : Db (list NFT) :=
  _ <- issue (QFind w skip limit) ;;
  l <- read_docs ;;
  if skip <? 0
  then throw (MongoServerError 2 "Skip value must be non-negative")
  else
    ret (map select_public
           (apply_limit limit
              (skipn (Z.to_nat skip) (sort_desc (filter (owned_confirmed w) l))))).

(** ** The aggregation of [getEventStats] *)

(** The accumulators of one [$group] bucket. *)
Record Group : Type := mkGroup {
  g_id : string;
  g_totalMints : Z;
  g_uniqueUsers : list string;
  g_firstMint : Z;
  g_lastMint : Z
}.

(** [$addToSet] *)
Definition addToSet (x : string) (s : list string) : list string :=
  if existsb (String.eqb x) s then s else s ++ [x].

Definition new_group (d : NFT) : Group :=
  {| g_id := eventName d;
     g_totalMints := 1;
     g_uniqueUsers := [walletAddress d];
     g_firstMint := mintedAt d;
     g_lastMint := mintedAt d |}.

Definition update_group (g : Group) (d : NFT) : Group :=
  {| g_id := g_id g;
     g_totalMints := g_totalMints g + 1;
     g_uniqueUsers := addToSet (walletAddress d) (g_uniqueUsers g);
     g_firstMint := Z.min (g_firstMint g) (mintedAt d);
     g_lastMint := Z.max (g_lastMint g) (mintedAt d) |}.

(** One document enters the bucket of its [eventData.eventName]; the buckets
    stand in the order in which their event names first appear. *)
Fixpoint accumulate (d : NFT) (gs : list Group) : list Group :=
  match gs with
  | [] => [new_group d]
  | g :: r =>
      if String.eqb (g_id g) (eventName d)
      then update_group g d :: r
      else g :: accumulate d r
  end.

Definition group_stage (l : list NFT) : list Group :=
  fold_left (fun gs d => accumulate d gs) l [].

(** One row of the result, after [$project]. *)
Record EventStat : Type := mkEventStat {
  stat_id : string;
  stat_eventName : string;
  totalMints : Z;
  uniqueUserCount : Z;
  firstMint : Z;
  lastMint : Z
}.

Definition project_stage (g : Group) : EventStat :=
  {| stat_id := g_id g;
     stat_eventName := g_id g;
     totalMints := g_totalMints g;
     uniqueUserCount := Z.of_nat (List.length (g_uniqueUsers g));
     firstMint := g_firstMint g;
     lastMint := g_lastMint g |}.

Definition is_confirmed (d : NFT) : bool := Status_eqb (status d) confirmed.

(** [NFT.aggregate([{ $match }, { $group }, { $project }])] *)
Definition aggregate_event_stats : Db (list EventStat) :=
  _ <- issue QAggregate ;;
  l <- read_docs ;;
  ret (map project_stage (group_stage (filter is_confirmed l))).

End Collection.

(* ===================================================================== *)
(** * Statics and [save] of the model *)
(* ===================================================================== *)

Module Model.

(** [v.toLowerCase()] on a value of the request: a [TypeError] unless [v] is
    a string. *)
Definition call_toLowerCase (expr : string) (v : option json) : Db string :=
  match v with
  | Some (JStr s) => ret (Js.toLowerCase s)
  | None | Some JNull =>
      throw (TypeError ("Cannot read properties of " ++ template v ++ " (reading 'toLowerCase')"))
  | Some _ => throw (TypeError (expr ++ ".toLowerCase is not a function"))
  end.

(** [nftSchema.statics.getUserNFTCount] *)
Definition getUserNFTCount (walletAddress : option json) : Db Z :=
  w <- call_toLowerCase "walletAddress" walletAddress ;;
  Collection.countDocuments w.

(** [nftSchema.statics.getEventStats] *)
Definition getEventStats : Db (list Collection.EventStat) :=
  Collection.aggregate_event_stats.

(** [doc.save()]: validation, then the pre-save hook, then the insert. *)
Definition save (rt : Runtime) (doc : Schema.Document) : Db NFT :=
  match Schema.validate doc with
  | [] => Collection.insertOne (Schema.pre_save (Schema.to_NFT rt doc))
  | errors => throw (ValidationError errors)
  end.

End Model.

(* ===================================================================== *)
(** * The request handlers *)
(* ===================================================================== *)

Module Controller.

(** One record of the list response: the stored fields and the three
    computed ones. *)
Record EnrichedNFT : Type := mkEnriched {
  nft : NFT;
  e_pinataImageUrl : string;
  e_blockExplorerUrl : string;
  daysAgo : Z
}.

Record Pagination : Type := mkPagination {
  currentPage : Z;
  totalPages : Z;
  totalCount : Z;
  hasNextPage : bool;
  hasPrevPage : bool;
  limit : Z
}.

Record ListMeta : Type := mkListMeta {
  meta_walletAddress : string;
  firstNFTDate : option Z;
  latestNFTDate : option Z
}.

Record TotalStats : Type := mkTotalStats {
  total_totalMints : Z;
  totalUniqueUsers : Z;
  events : list Collection.EventStat
}.

(** What a handler puts in the JSON body beside [success] and [message]. *)
Inductive Payload : Type :=
| NoPayload
| RequiredFields (required : list string)
| ExistingRecord (data : NFT)
| SavedRecord (data : NFT) (userTotalNFTs : Z) (isFirstNFT : bool)
| FieldErrors (errors : list (string * string))
| ErrorText (error : string)
| NFTPage (nfts : list EnrichedNFT) (pagination : Pagination) (meta : ListMeta)
| Stats (data : TotalStats).

(** [res.status(code).json({ success, message, ... })] *)
Record Response : Type := mkResponse {
  http_status : Z;
  success : bool;
  message : option string;
  payload : Payload
}.

Definition error_message (e : JsError) : string :=
  match e with
  | TypeError m => m
  | ValidationError _ => "NFT validation failed"
  | MongoServerError _ m => m
  end.

(** [process.env.NODE_ENV === 'development' ? error.message : 'Internal server error'] *)
Definition shown_error (rt : Runtime) (e : JsError) : string :=
  match NODE_ENV rt with
  | Some env => if String.eqb env "development" then error_message e else "Internal server error"
  | None => "Internal server error"
  end.

(** ** [saveNFT] *)

Record SaveRequest : Type := mkSaveRequest {
  body_walletAddress : option json;
  body_ipfsCid : option json;
  body_metadataUri : option json;
  body_tokenId : option json;
  body_contractAddress : option json;
  body_transactionHash : option json;
  body_eventData : option json;
  header_userAgent : option string;
  req_ip : option string;
  remoteAddress : option string
}.

Definition required_fields : list string :=
  ["walletAddress"; "ipfsCid"; "metadataUri"; "tokenId"; "contractAddress"; "transactionHash"].

(** The test of the first [if]: some required field is falsy. *)
Definition some_required_falsy (req : SaveRequest) : bool :=
  negb (truthy (body_walletAddress req))
  || negb (truthy (body_ipfsCid req))
  || negb (truthy (body_metadataUri req))
  || negb (truthy (body_tokenId req))
  || negb (truthy (body_contractAddress req))
  || negb (truthy (body_transactionHash req)).

Definition nftData (rt : Runtime) (req : SaveRequest) : Schema.NftData :=
  let eventData := body_eventData req in
  {| Schema.in_walletAddress := body_walletAddress req;
     Schema.in_ipfsCid := body_ipfsCid req;
     Schema.in_metadataUri := body_metadataUri req;
     Schema.in_tokenId := body_tokenId req;
     Schema.in_contractAddress := body_contractAddress req;
     Schema.in_transactionHash := body_transactionHash req;
     Schema.in_eventName :=
       if truthy (opt_chain eventData "eventName")
       then opt_chain eventData "eventName"
       else Some (JStr "Onchain Summer Lagos");
     Schema.in_mintedAt :=
       match opt_chain eventData "mintedAt" with
       | Some v => if truthy (Some v) then Schema.newDate rt v else Some (Date_now rt)
       | None => Some (Date_now rt)
       end;
     Schema.in_imageUrl := "https://gateway.pinata.cloud/ipfs/" ++ template (body_ipfsCid req);
     Schema.in_userAgent := header_userAgent req;
     Schema.in_ipAddress :=
       match req_ip req with
       | Some ip => if String.eqb ip "" then remoteAddress req else Some ip
       | None => remoteAddress req
       end |}.

(** What evaluating the object literal [nftData] throws, if anything:
    [new Date(eventData.mintedAt)] and the template literal of [imageUrl]
    convert their operand to a primitive. *)
Definition nftData_error (req : SaveRequest) : option JsError :=
  let thrown := Some (TypeError "Cannot convert object to primitive value") in
  let imageUrl_error :=
    match body_ipfsCid req with
    | Some v => if to_primitive_throws v then thrown else None
    | None => None
    end in
  match opt_chain (body_eventData req) "mintedAt" with
  | Some v => if truthy (Some v) && to_primitive_throws v then thrown else imageUrl_error
  | None => imageUrl_error
  end.

(** The body of the [try] block. *)
Definition saveNFT_try (rt : Runtime) (req : SaveRequest) : Db Response :=
  if some_required_falsy req
  then ret {| http_status := 400; success := false;
              message := Some "Missing required fields";
              payload := RequiredFields required_fields |}
  else
    h <- Model.call_toLowerCase "transactionHash" (body_transactionHash req) ;;
    existingNFT <- Collection.findOne h ;;
    match existingNFT with
    | Some existing =>
        ret {| http_status := 409; success := false;
               message := Some "NFT already recorded";
               payload := ExistingRecord existing |}
    | None =>
        match nftData_error req with
        | Some thrown => throw thrown
        | None =>
            let newNFT := Schema.new_NFT (nftData rt req) in
            savedNFT <- Model.save rt newNFT ;;
            userNFTCount <- Model.getUserNFTCount (body_walletAddress req) ;;
            ret {| http_status := 201; success := true;
                   message := Some "NFT saved successfully";
                   payload := SavedRecord savedNFT userNFTCount (userNFTCount =? 1) |}
        end
    end.

(** The [catch] block. *)
Definition saveNFT_catch (rt : Runtime) (error : JsError) : Db Response :=
  match error with
  | ValidationError errors =>
      ret {| http_status := 400; success := false;
             message := Some "Validation failed";
             payload := FieldErrors errors |}
  | MongoServerError 11000 _ =>
      ret {| http_status := 409; success := false;
             message := Some "Duplicate transaction hash";
             payload := ErrorText "This NFT has already been recorded" |}
  | _ =>
      ret {| http_status := 500; success := false;
             message := Some "Failed to save NFT";
             payload := ErrorText (shown_error rt error) |}
  end.

Definition saveNFT (rt : Runtime) (req : SaveRequest) : Db Response :=
  try_catch (saveNFT_try rt req) (saveNFT_catch rt).

(** ** [getUserNFTs] *)

Record ListRequest : Type := mkListRequest {
  param_walletAddress : string;
  query_page : option string;
  query_limit : option string
}.

Definition ms_per_day : Z := 1000 * 60 * 60 * 24.

(** The function mapped over the page. *)
Definition enrich (rt : Runtime) (d : NFT) : EnrichedNFT :=
  {| nft := d;
     e_pinataImageUrl := "https://gateway.pinata.cloud/ipfs/" ++ ipfsCid d;
     e_blockExplorerUrl :=
       if networkChainId d =? 8453
       then "https://basescan.org/tx/" ++ transactionHash d
       else "https://sepolia.basescan.org/tx/" ++ transactionHash d;
     daysAgo := (Date_now rt - mintedAt d) / ms_per_day |}.

(** [!walletAddress || !re.test(walletAddress)] *)
Definition invalid_wallet (w : string) : bool :=
  String.eqb w "" || negb (Js.address_re w).

Definition getUserNFTs_try (rt : Runtime) (req : ListRequest) : Db Response :=
  let walletAddress := param_walletAddress req in
  let page := Js.parseInt_or (query_page req) 1 in
  let limit := Js.parseInt_or (query_limit req) 10 in
  let skip := (page - 1) * limit in
  if invalid_wallet walletAddress
  then ret {| http_status := 400; success := false;
              message := Some "Invalid wallet address format";
              payload := NoPayload |}
  else
    nfts <- Collection.find_page (Js.toLowerCase walletAddress) skip limit ;;
    totalCount <- Model.getUserNFTCount (Some (JStr walletAddress)) ;;
    let totalPages := Js.ceil_div totalCount limit in
    let enrichedNFTs := map (enrich rt) nfts in
    ret {| http_status := 200; success := true; message := None;
           payload :=
             NFTPage enrichedNFTs
               {| currentPage := page;
                  totalPages := totalPages;
                  totalCount := totalCount;
                  hasNextPage := page <? totalPages;
                  hasPrevPage := 1 <? page;
                  limit := limit |}
               {| meta_walletAddress := Js.toLowerCase walletAddress;
                  firstNFTDate := option_map (fun e => mintedAt (nft e)) (last (map Some enrichedNFTs) None);
                  latestNFTDate := option_map (fun e => mintedAt (nft e)) (hd_error enrichedNFTs) |} |}.

Definition getUserNFTs_catch (rt : Runtime) (error : JsError) : Db Response :=
  ret {| http_status := 500; success := false;
         message := Some "Failed to fetch NFTs";
         payload := ErrorText (shown_error rt error) |}.

Definition getUserNFTs (rt : Runtime) (req : ListRequest) : Db Response :=
  try_catch (getUserNFTs_try rt req) (getUserNFTs_catch rt).

(** ** [getEventStats] *)

(** The [forEach] that adds one event's numbers to the totals. *)
Definition add_event (t : TotalStats) (event : Collection.EventStat) : TotalStats :=
  {| total_totalMints := total_totalMints t + Collection.totalMints event;
     totalUniqueUsers := totalUniqueUsers t + Collection.uniqueUserCount event;
     events := events t |}.

Definition getEventStats_try : Db Response :=
  stats <- Model.getEventStats ;;
  let totalStats := {| total_totalMints := 0; totalUniqueUsers := 0; events := stats |} in
  ret {| http_status := 200; success := true; message := None;
         payload := Stats (fold_left add_event stats totalStats) |}.

Definition getEventStats_catch (rt : Runtime) (error : JsError) : Db Response :=
  ret {| http_status := 500; success := false;
         message := Some "Failed to fetch event statistics";
         payload := ErrorText (shown_error rt error) |}.

Definition getEventStats (rt : Runtime) : Db Response :=
  try_catch getEventStats_try (getEventStats_catch rt).

End Controller.

(* ===================================================================== *)
(** * Vocabulary of the statements *)
(* ===================================================================== *)

Import Controller.

(** No capital letter is left in the string. *)
Definition is_lowercase (s : string) : bool :=
  Js.all_chars (fun c => negb (Js.is_upper c)) s.

(** [0x] followed by exactly 40 hexadecimal characters. *)
Definition matches_address_pattern (s : string) : Prop :=
  exists t, s = "0x" ++ t /\ String.length t = 40%nat /\ Js.all_chars Js.is_hex t = true.

(** The six required properties of a save request, in the order of the code. *)
Definition required_values (req : SaveRequest) : list (string * option json) :=
  [("walletAddress", body_walletAddress req);
   ("ipfsCid", body_ipfsCid req);
   ("metadataUri", body_metadataUri req);
   ("tokenId", body_tokenId req);
   ("contractAddress", body_contractAddress req);
   ("transactionHash", body_transactionHash req)].

(** The names of the required properties the body does not have. *)
Definition absent_fields (req : SaveRequest) : list string :=
  map fst (filter (fun kv => match snd kv with None => true | Some _ => false end)
             (required_values req)).

(** The falsy values a JSON body can carry. *)
Definition falsy_json (j : json) : Prop :=
  j = JStr "" \/ j = JNum 0 \/ j = JBool false \/ j = JNull.

Definition is_string (j : json) : Prop := exists s, j = JStr s.

(** Descending order of creation. *)
Definition newer_first (a b : NFT) : Prop := createdAt b <= createdAt a.

(** The documents of one event, and the owners among them. *)
Definition of_event (name : string) (l : list NFT) : list NFT :=
  filter (fun d => String.eqb (eventName d) name) l.

Definition distinct_owners (l : list NFT) : list string :=
  nodup string_dec (map walletAddress l).

Definition sum_Z (l : list Z) : Z := fold_right Z.add 0 l.

(** What a bucket of [$group] holds once the documents of [l] went through. *)
Definition group_of (l : list NFT) (g : Collection.Group) : Prop :=
  Collection.g_totalMints g = Z.of_nat (List.length (of_event (Collection.g_id g) l)) /\
  of_event (Collection.g_id g) l <> [] /\
  NoDup (Collection.g_uniqueUsers g) /\
  (forall u, In u (Collection.g_uniqueUsers g)
             <-> In u (map walletAddress (of_event (Collection.g_id g) l))).

Definition groups_of (l : list NFT) (gs : list Collection.Group) : Prop :=
  NoDup (map Collection.g_id gs) /\
  Forall (group_of l) gs /\
  (forall d, In d l -> In (eventName d) (map Collection.g_id gs)).

(** The response of a computation that returned one. *)
Definition returned {A} (o : Outcome A) : option A :=
  match o with
  | Returned a => Some a
  | Thrown _ => None
  end.

(** The collection without the documents that are not confirmed. *)
Definition confirmed_only (wd : World) : World :=
  mkWorld (filter Collection.is_confirmed (docs wd)) (queries wd).

(** The answer to a save request that lacks a required property. *)
Definition missing_fields_response : Response :=
  {| http_status := 400; success := false;
     message := Some "Missing required fields";
     payload := RequiredFields
                  ["walletAddress"; "ipfsCid"; "metadataUri"; "tokenId";
                   "contractAddress"; "transactionHash"] |}.

(** The document [saveNFT] hands to the insert for a request. *)
Definition written_document (rt : Runtime) (req : SaveRequest) : NFT :=
  Schema.pre_save (Schema.to_NFT rt (Schema.new_NFT (nftData rt req))).

(** The first and last mint dates of a bucket against the documents of its
    event: bounds that some document attains. *)
Definition span_of (l : list NFT) (g : Collection.Group) : Prop :=
  (forall d, In d (of_event (Collection.g_id g) l) ->
             Collection.g_firstMint g <= mintedAt d <= Collection.g_lastMint g) /\
  (exists d, In d (of_event (Collection.g_id g) l) /\ mintedAt d = Collection.g_firstMint g) /\
  (exists d, In d (of_event (Collection.g_id g) l) /\ mintedAt d = Collection.g_lastMint g).

(** The [eventData] of a request that the schema accepts: no event name or
    the one of the enumeration, and no mint date or one that [new Date]
    reads. *)
Definition event_data_accepted (rt : Runtime) (eventData : option json) : Prop :=
  (truthy (opt_chain eventData "eventName") = false \/
   opt_chain eventData "eventName" = Some (JStr "Onchain Summer Lagos")) /\
  (forall v, opt_chain eventData "mintedAt" = Some v -> truthy (Some v) = true ->
             Schema.newDate rt v <> None).

(** A request body that passes the checks of the handler and of the schema:
    six strings, the three hexadecimal ones matching their pattern once
    lowercased, and an accepted [eventData]. *)
Definition payload_accepted (rt : Runtime) (req : SaveRequest) : Prop :=
  (exists w, body_walletAddress req = Some (JStr w) /\ Js.address_re (Js.toLowerCase w) = true) /\
  (exists c, body_ipfsCid req = Some (JStr c) /\ Js.cid_re c = true) /\
  (exists u, body_metadataUri req = Some (JStr u) /\ Js.ipfs_uri_re u = true) /\
  (exists t, body_tokenId req = Some (JStr t) /\ t <> "") /\
  (exists a, body_contractAddress req = Some (JStr a) /\ Js.address_re (Js.toLowerCase a) = true) /\
  (exists h, body_transactionHash req = Some (JStr h) /\ Js.txhash_re (Js.toLowerCase h) = true) /\
  event_data_accepted rt (body_eventData req).

(** The records of a page, as [find] returns them. *)
Definition page_records (w : string) (page limit : Z) (l : list NFT) : list NFT :=
  map Collection.select_public
    (Collection.apply_limit limit
       (skipn (Z.to_nat ((page - 1) * limit))
          (Collection.sort_desc (filter (Collection.owned_confirmed w) l)))).

(** The stored records a list request is answered with; none when the
    answer is an error. *)
Definition listed (rt : Runtime) (req : ListRequest) (wd : World) : list NFT :=
  match fst (getUserNFTs rt req wd) with
  | Returned r =>
      match payload r with
      | NFTPage nfts _ _ => map nft nfts
      | _ => []
      end
  | Thrown _ => []
  end.

(** A confirmed record of an owner, in the words of the specification: the
    stored address is the owner's and the status is [confirmed]. *)
Definition confirmed_record_of (owner : string) (d : NFT) : Prop :=
  walletAddress d = owner /\ status d = confirmed.

Definition confirmed_record_ofb (owner : string) (d : NFT) : bool :=
  match status d with
  | confirmed => String.eqb owner (walletAddress d)
  | _ => false
  end.

(** The largest integer below which every integer is a double
    ([Number.MAX_SAFE_INTEGER]). *)
Definition max_safe_integer : Z := 9007199254740991.

(** A query parameter falls back to its default when [parseInt] gives [NaN]
    or zero. *)
Definition falls_back (v : option string) : Prop :=
  Js.parseInt v = None \/ Js.parseInt v = Some 0.

(** After white space and an optional sign, a decimal digit follows. *)
Definition starts_with_digit (s : string) : bool :=
  match Js.skip_spaces s with
  | String "-" (String c _) => Js.is_digit c
  | String "+" (String c _) => Js.is_digit c
  | String c _ => Js.is_digit c
  | EmptyString => false
  end.

(** ** Sample data *)

Module Sample.

Definition rt (now : Z) : Runtime :=
  {| Date_now := now; Date_parse := fun _ => None; NODE_ENV := None |}.

Fixpoint replicate (n : nat) (c : ascii) : string :=
  match n with
  | O => EmptyString
  | S k => String c (replicate k c)
  end.

Definition wallet : string := "0xAbCdEF0123456789abcdef0123456789ABCDEF01".
Definition wallet2 : string := "0x1111111111111111111111111111111111111111".
Definition wallet3 : string := "0x2222222222222222222222222222222222222222".
Definition contract : string := "0x00000000000000000000000000000000000000Aa".
Definition cid : string := "QmYwAPJzv5CZsnA625s3Xf2nemtYgPpHdWEz79ojWnPbdG".

(** A transaction hash made of one hexadecimal digit. *)
Definition hash_of (c : ascii) : string := "0x" ++ replicate 64 c.

Definition request (w : string) (h : option json) : SaveRequest :=
  {| body_walletAddress := Some (JStr w);
     body_ipfsCid := Some (JStr cid);
     body_metadataUri := Some (JStr ("ipfs://" ++ cid));
     body_tokenId := Some (JStr "1");
     body_contractAddress := Some (JStr contract);
     body_transactionHash := h;
     body_eventData := None;
     header_userAgent := Some "curl/8";
     req_ip := Some "10.0.0.1";
     remoteAddress := None |}.

Definition request_no_wallet : SaveRequest :=
  {| body_walletAddress := None;
     body_ipfsCid := Some (JStr cid);
     body_metadataUri := Some (JStr ("ipfs://" ++ cid));
     body_tokenId := Some (JStr "1");
     body_contractAddress := Some (JStr contract);
     body_transactionHash := Some (JStr (hash_of "A"));
     body_eventData := None;
     header_userAgent := None;
     req_ip := None;
     remoteAddress := None |}.

Definition empty : World := mkWorld [] [].

(** The collection after the requests of [l] were saved, one per tick. *)
Definition saved (w : string) (l : list ascii) : World :=
  fold_left
    (fun wd c =>
       snd (saveNFT (rt (1700000000000 + Z.of_nat (nat_of_ascii c)))
              (request w (Some (JStr (hash_of c)))) wd))
    l empty.

Definition fifteen : World :=
  saved wallet
    ["0"; "1"; "2"; "3"; "4"; "5"; "6"; "7"; "8"; "9"; "a"; "b"; "c"; "d"; "e"]%char.

(** A document written by something other than [saveNFT]. *)
Definition doc (event w : string) (c : ascii) (st : Status) : NFT :=
  {| walletAddress := w;
     ipfsCid := cid;
     metadataUri := "ipfs://" ++ cid;
     tokenId := "1";
     contractAddress := Js.toLowerCase contract;
     transactionHash := hash_of c;
     eventName := event;
     mintedAt := 1700000000000;
     networkChainId := 84532;
     imageUrl := None;
     status := st;
     userAgent := None;
     ipAddress := None;
     createdAt := 1700000000000 + Z.of_nat (nat_of_ascii c);
     updatedAt := 1700000000000 + Z.of_nat (nat_of_ascii c) |}.

(** Event A: three mints by two owners; event B: one mint; one pending record. *)
Definition two_events : World :=
  mkWorld
    [doc "A" wallet2 "1" confirmed;
     doc "B" wallet3 "2" confirmed;
     doc "A" wallet3 "3" confirmed;
     doc "A" wallet2 "4" confirmed;
     doc "A" wallet2 "5" pending]
    [].

End Sample.

(** The fifteen records of one owner among a newer record of another owner
    and a record of the same owner that is still pending. *)
Definition sample_mixed : World :=
  mkWorld
    (Sample.doc "Onchain Summer Lagos" Sample.wallet2 "f" confirmed
     :: {| walletAddress := Js.toLowerCase Sample.wallet;
           ipfsCid := Sample.cid;
           metadataUri := "ipfs://" ++ Sample.cid;
           tokenId := "2";
           contractAddress := Js.toLowerCase Sample.contract;
           transactionHash := "0x" ++ Sample.replicate 32 "a" ++ Sample.replicate 32 "b";
           eventName := "Onchain Summer Lagos";
           mintedAt := 1700000000050;
           networkChainId := 8453;
           imageUrl := None;
           status := pending;
           userAgent := None;
           ipAddress := None;
           createdAt := 1700000000050;
           updatedAt := 1700000000050 |}
     :: docs Sample.fifteen)
    [].
Example parseInt_10 : Js.parseInt (Some "10") = Some 10. Proof. reflexivity. Qed.
Example parseInt_hex : Js.parseInt (Some " -0x1f") = Some (-31). Proof. reflexivity. Qed.
Example parseInt_abc : Js.parseInt (Some "abc") = None. Proof. reflexivity. Qed.
Example parseInt_12px : Js.parseInt (Some "12px") = Some 12. Proof. reflexivity. Qed.
Example lower_ex : Js.toLowerCase "0xABcd" = "0xabcd". Proof. reflexivity. Qed.
Example str_neg : Js.string_of_Z (-42) = "-42". Proof. reflexivity. Qed.
Example str_zero : Js.string_of_Z 0 = "0". Proof. reflexivity. Qed.
Example ceil_15_10 : Js.ceil_div 15 10 = 2. Proof. reflexivity. Qed.
Example pinata_ex :
  Js.pinata_url_re "https://gateway.pinata.cloud/ipfs/QmYwAPJzv5CZsnA625s3Xf2nemtYgPpHdWEz79ojWnPbdG" = true.
Proof. reflexivity. Qed.

Example fifteen_saved : List.length (docs Sample.fifteen) = 15%nat.
Proof. vm_compute. reflexivity. Qed.

(* ===================================================================== *)
(** * Strings *)
(* ===================================================================== *)

Section Strings.

Lemma lower_char_not_upper (c : ascii) : Js.is_upper (Js.lower_char c) = false.
Proof. destruct c as [[] [] [] [] [] [] [] []]; reflexivity. Qed.

Lemma lower_char_idem (c : ascii) : Js.lower_char (Js.lower_char c) = Js.lower_char c.
Proof. destruct c as [[] [] [] [] [] [] [] []]; reflexivity. Qed.

Lemma toLowerCase_idem (s : string) : Js.toLowerCase (Js.toLowerCase s) = Js.toLowerCase s.
Proof.
  induction s as [|c r IH]; simpl; [reflexivity|].
  rewrite lower_char_idem, IH. reflexivity.
Qed.

Lemma toLowerCase_is_lowercase (s : string) : is_lowercase (Js.toLowerCase s) = true.
Proof.
  induction s as [|c r IH]; simpl; [reflexivity|].
  unfold is_lowercase in *. simpl. rewrite lower_char_not_upper, IH. reflexivity.
Qed.


Lemma lower_if_set_lower (s : string) :
  Schema.lower_if_set (Js.toLowerCase s) = Js.toLowerCase s.
Proof.
  unfold Schema.lower_if_set.
  destruct (negb (Js.toLowerCase s =? "")%string); [apply toLowerCase_idem | reflexivity].
Qed.

(** The value a lowercased path has when it is written. *)
Lemma stored_path_is_lowercase (c : Schema.Cast string) :
  is_lowercase (Schema.lower_if_set (Schema.cast_value "" (Schema.lowercase c))) = true.
Proof.
  destruct c as [s| |]; simpl; try reflexivity.
  rewrite lower_if_set_lower. apply toLowerCase_is_lowercase.
Qed.

Lemma strip_prefix_app (p r : string) : Js.strip_prefix p (p ++ r) = Some r.
Proof.
  induction p as [|a p IH]; simpl; [reflexivity|].
  rewrite Ascii.eqb_refl. exact IH.
Qed.

Lemma strip_prefix_some (p s r : string) : Js.strip_prefix p s = Some r -> s = p ++ r.
Proof.
  revert s. induction p as [|a p IH]; intros s H; simpl in *.
  - congruence.
  - destruct s as [|b s']; [discriminate|].
    destruct (Ascii.eqb_spec a b) as [->|]; [|discriminate].
    f_equal. apply IH. exact H.
Qed.

(** The test the code runs is the pattern of the specification. *)
Lemma address_re_iff (s : string) :
  Js.address_re s = true <-> matches_address_pattern s.
Proof.
  unfold Js.address_re, Js.prefix_then_class, matches_address_pattern. split.
  - destruct (Js.strip_prefix "0x" s) as [r|] eqn:E; [|discriminate].
    intros H. apply andb_true_iff in H. destruct H as [Hl Hc].
    exists r. repeat split.
    + apply strip_prefix_some. exact E.
    + apply Nat.eqb_eq. exact Hl.
    + exact Hc.
  - intros (t & -> & Hl & Hc). rewrite strip_prefix_app.
    rewrite Hl, Hc. reflexivity.
Qed.

End Strings.

(* ===================================================================== *)
(** * Arithmetic of the pagination *)
(* ===================================================================== *)

Lemma ceil_div_bounds (a b : Z) :
  0 < b -> (Js.ceil_div a b - 1) * b < a <= Js.ceil_div a b * b.
Proof.
  intros Hb. unfold Js.ceil_div.
  pose proof (Z.div_mod (- a) b ltac:(lia)) as E.
  pose proof (Z.mod_pos_bound (- a) b Hb) as B.
  nia.
Qed.

(** [Math.ceil] picks the only integer within these bounds. *)
Lemma ceil_div_unique (a b n : Z) :
  0 < b -> (n - 1) * b < a <= n * b -> Js.ceil_div a b = n.
Proof.
  intros Hb Hn. pose proof (ceil_div_bounds a b Hb). nia.
Qed.

Lemma floor_div_bounds (a b : Z) :
  0 < b -> (a / b) * b <= a < (a / b + 1) * b.
Proof.
  intros Hb.
  pose proof (Z.div_mod a b ltac:(lia)) as E.
  pose proof (Z.mod_pos_bound a b Hb) as B.
  nia.
Qed.

(* ===================================================================== *)
(** * The sort of [find] *)
(* ===================================================================== *)

Section Sorting.

Import Collection.

Lemma insert_desc_perm (x : NFT) (l : list NFT) : Permutation (insert_desc x l) (x :: l).
Proof.
  induction l as [|y r IH]; simpl; [apply Permutation_refl|].
  destruct (createdAt y <=? createdAt x).
  - apply Permutation_refl.
  - apply Permutation_trans with (y :: x :: r).
    + apply perm_skip. exact IH.
    + apply perm_swap.
Qed.

Lemma sort_desc_perm (l : list NFT) : Permutation (sort_desc l) l.
Proof.
  induction l as [|x r IH]; simpl; [apply perm_nil|].
  apply Permutation_trans with (x :: sort_desc r).
  - apply insert_desc_perm.
  - apply perm_skip. exact IH.
Qed.

Lemma insert_desc_hd (a x : NFT) (l : list NFT) :
  newer_first a x -> HdRel newer_first a l -> HdRel newer_first a (insert_desc x l).
Proof.
  intros Hax Hl. destruct l as [|y r]; simpl.
  - constructor. exact Hax.
  - destruct (createdAt y <=? createdAt x); constructor.
    + exact Hax.
    + inversion Hl; subst. assumption.
Qed.

Lemma insert_desc_sorted (x : NFT) (l : list NFT) :
  Sorted newer_first l -> Sorted newer_first (insert_desc x l).
Proof.
  induction 1 as [|y r Hs IH Hhd]; simpl.
  - repeat constructor.
  - destruct (Z.leb_spec (createdAt y) (createdAt x)) as [Hle|Hlt].
    + constructor; [constructor; assumption|]. constructor. exact Hle.
    + constructor; [exact IH|].
      apply insert_desc_hd; [|exact Hhd]. unfold newer_first. lia.
Qed.

Lemma sort_desc_sorted (l : list NFT) : Sorted newer_first (sort_desc l).
Proof.
  induction l as [|x r IH]; simpl; [constructor|].
  apply insert_desc_sorted. exact IH.
Qed.

Lemma sort_desc_length (l : list NFT) : List.length (sort_desc l) = List.length l.
Proof. apply Permutation_length, sort_desc_perm. Qed.

End Sorting.

(* ===================================================================== *)
(** * The filters of the read operations *)
(* ===================================================================== *)

Section Filters.

Import Collection.

Lemma filter_filter {A} (p q : A -> bool) (l : list A) :
  (forall x, p x = true -> q x = true) ->
  filter p (filter q l) = filter p l.
Proof.
  intros Hpq. induction l as [|x r IH]; simpl; [reflexivity|].
  destruct (q x) eqn:Eq; simpl.
  - rewrite IH. reflexivity.
  - destruct (p x) eqn:Ep; [|exact IH].
    rewrite (Hpq x Ep) in Eq. discriminate.
Qed.

Lemma filter_idem {A} (p : A -> bool) (l : list A) : filter p (filter p l) = filter p l.
Proof. apply filter_filter. auto. Qed.

Lemma owned_confirmed_is_confirmed (w : string) (d : NFT) :
  owned_confirmed w d = true -> is_confirmed d = true.
Proof.
  unfold owned_confirmed, is_confirmed. intros H.
  apply andb_true_iff in H. tauto.
Qed.

Lemma Status_eqb_eq (a b : Status) : Status_eqb a b = true <-> a = b.
Proof. destruct a, b; simpl; split; congruence. Qed.

Lemma owned_confirmed_spec (w : string) (d : NFT) :
  owned_confirmed w d = true <-> walletAddress d = w /\ status d = confirmed.
Proof.
  unfold owned_confirmed. rewrite andb_true_iff, String.eqb_eq, Status_eqb_eq. tauto.
Qed.

Lemma apply_limit_incl (n : Z) (l : list NFT) : incl (apply_limit n l) l.
Proof.
  unfold apply_limit. destruct (n =? 0); intros x Hx; [exact Hx|].
  rewrite <- (firstn_skipn (Z.to_nat (Z.abs n)) l). apply in_or_app. left. exact Hx.
Qed.

Lemma skipn_incl {A} (n : nat) (l : list A) : incl (skipn n l) l.
Proof.
  intros x Hx. rewrite <- (firstn_skipn n l). apply in_or_app. right. exact Hx.
Qed.

(** What a page is made of: matching documents of the collection. *)
Lemma page_members (w : string) (skip limit : Z) (l : list NFT) (x : NFT) :
  In x (apply_limit limit (skipn (Z.to_nat skip) (sort_desc (filter (owned_confirmed w) l)))) ->
  In x l /\ walletAddress x = w /\ status x = confirmed.
Proof.
  intros H. apply apply_limit_incl, skipn_incl in H.
  apply (Permutation_in _ (sort_desc_perm _)) in H.
  apply filter_In in H. destruct H as [Hin Hp].
  apply owned_confirmed_spec in Hp. tauto.
Qed.

End Filters.

(* ===================================================================== *)
(** * The [$group] stage *)
(* ===================================================================== *)

Section Grouping.

Import Collection.

Lemma addToSet_In (x u : string) (s : list string) :
  In u (addToSet x s) <-> In u s \/ u = x.
Proof.
  unfold addToSet. destruct (existsb (String.eqb x) s) eqn:E.
  - split; [tauto|]. intros [H| ->]; [exact H|].
    apply existsb_exists in E. destruct E as (y & Hy & Exy).
    apply String.eqb_eq in Exy. subst y. exact Hy.
  - rewrite in_app_iff. simpl. intuition congruence.
Qed.

Lemma addToSet_NoDup (x : string) (s : list string) : NoDup s -> NoDup (addToSet x s).
Proof.
  intros Hs. unfold addToSet. destruct (existsb (String.eqb x) s) eqn:E; [exact Hs|].
  apply NoDup_app; [exact Hs | repeat constructor; intros [] |].
  intros y Hy [Hxy|[]]. subst y.
  assert (existsb (String.eqb x) s = true) as E'.
  { apply existsb_exists. exists x. split; [exact Hy | apply String.eqb_refl]. }
  congruence.
Qed.

Lemma of_event_snoc (name : string) (l : list NFT) (d : NFT) :
  of_event name (l ++ [d])
  = (of_event name l ++ (if String.eqb (eventName d) name then [d] else []))%list.
Proof. unfold of_event. rewrite filter_app. reflexivity. Qed.

Lemma group_of_other (l : list NFT) (d : NFT) (g : Group) :
  g_id g <> eventName d -> group_of l g -> group_of (l ++ [d]) g.
Proof.
  intros Hne H. unfold group_of in *. rewrite of_event_snoc.
  destruct (String.eqb_spec (eventName d) (g_id g)) as [E|_]; [congruence|].
  rewrite app_nil_r. exact H.
Qed.

Lemma group_of_update (l : list NFT) (d : NFT) (g : Group) :
  g_id g = eventName d -> group_of l g -> group_of (l ++ [d]) (update_group g d).
Proof.
  intros He (Hn & Hne & Hnd & Hin). unfold group_of. simpl.
  rewrite of_event_snoc, He, String.eqb_refl. rewrite <- He.
  repeat split.
  - rewrite Hn, length_app. simpl. lia.
  - intros E. apply app_eq_nil in E. destruct E. discriminate.
  - apply addToSet_NoDup. exact Hnd.
  - rewrite addToSet_In, map_app, in_app_iff, Hin. simpl. intuition congruence.
  - rewrite addToSet_In, map_app, in_app_iff, Hin. simpl. intuition congruence.
Qed.

Lemma group_of_new (l : list NFT) (d : NFT) :
  of_event (eventName d) l = [] -> group_of (l ++ [d]) (new_group d).
Proof.
  intros He. unfold group_of. simpl.
  rewrite of_event_snoc, He, String.eqb_refl. simpl.
  repeat split; try discriminate; try tauto.
  repeat constructor. intros [].
Qed.

Lemma accumulate_ids (d : NFT) (gs : list Group) (k : string) :
  In k (map g_id (accumulate d gs)) <-> In k (map g_id gs) \/ k = eventName d.
Proof.
  induction gs as [|g r IH]; simpl.
  - intuition congruence.
  - destruct (String.eqb_spec (g_id g) (eventName d)) as [E|E]; simpl.
    + intuition congruence.
    + rewrite IH. tauto.
Qed.

Lemma accumulate_NoDup (d : NFT) (gs : list Group) :
  NoDup (map g_id gs) -> NoDup (map g_id (accumulate d gs)).
Proof.
  induction gs as [|g r IH]; simpl; intros H.
  - repeat constructor. intros [].
  - destruct (String.eqb_spec (g_id g) (eventName d)) as [E|E]; simpl; [exact H|].
    inversion H as [|? ? Hnotin Hr]; subst. constructor; [|apply IH; exact Hr].
    rewrite accumulate_ids. intros [Hin|Heq]; [tauto | congruence].
Qed.

Lemma accumulate_Forall (l : list NFT) (d : NFT) (gs : list Group) :
  NoDup (map g_id gs) ->
  Forall (group_of l) gs ->
  (~ In (eventName d) (map g_id gs) -> of_event (eventName d) l = []) ->
  Forall (group_of (l ++ [d])) (accumulate d gs).
Proof.
  induction gs as [|g r IH]; simpl; intros Hnd Hall Hnew.
  - constructor; [|constructor]. apply group_of_new. apply Hnew. tauto.
  - inversion Hnd as [|? ? Hnotin Hr]; subst.
    inversion Hall as [|? ? Hg Hrest]; subst.
    destruct (String.eqb_spec (g_id g) (eventName d)) as [E|E].
    + constructor; [apply group_of_update; assumption|].
      rewrite Forall_forall in *. intros g' Hg'.
      apply group_of_other; [|apply Hrest; exact Hg'].
      intros E'. apply Hnotin. rewrite E, <- E'. apply in_map. exact Hg'.
    + constructor; [apply group_of_other; assumption|].
      apply IH; try assumption. intros Hn. apply Hnew. intros [H|H]; [congruence | tauto].
Qed.

Lemma of_event_nil_iff (name : string) (l : list NFT) :
  of_event name l = [] <-> (forall d, In d l -> eventName d <> name).
Proof.
  unfold of_event. split.
  - intros E d Hd He.
    assert (In d (filter (fun d0 => (eventName d0 =? name)%string) l)) as H.
    { apply filter_In. split; [exact Hd | apply String.eqb_eq; exact He]. }
    rewrite E in H. exact H.
  - intros H. induction l as [|x r IH]; simpl; [reflexivity|].
    destruct (String.eqb_spec (eventName x) name) as [E|E].
    + exfalso. apply (H x); [left; reflexivity | exact E].
    + apply IH. intros d Hd. apply H. right. exact Hd.
Qed.

Lemma accumulate_groups (l : list NFT) (d : NFT) (gs : list Group) :
  groups_of l gs -> groups_of (l ++ [d]) (accumulate d gs).
Proof.
  intros (Hnd & Hall & Hcov). repeat split.
  - apply accumulate_NoDup. exact Hnd.
  - apply accumulate_Forall; try assumption.
    intros Hn. apply of_event_nil_iff. intros d' Hd' E.
    apply Hn. rewrite <- E. apply Hcov. exact Hd'.
  - intros d' Hd'. rewrite accumulate_ids. apply in_app_iff in Hd'.
    destruct Hd' as [H|[<-|[]]]; [left; apply Hcov; exact H | right; reflexivity].
Qed.

Lemma group_stage_snoc (l : list NFT) (d : NFT) :
  group_stage (l ++ [d]) = accumulate d (group_stage l).
Proof. unfold group_stage. rewrite fold_left_app. reflexivity. Qed.

Lemma group_stage_groups (l : list NFT) : groups_of l (group_stage l).
Proof.
  induction l as [|d l IH] using rev_ind.
  - repeat split; [constructor | constructor | intros d []].
  - rewrite group_stage_snoc. apply accumulate_groups. exact IH.
Qed.

(** The size of an [$addToSet] set is the number of distinct owners. *)
Lemma group_unique_count (l : list NFT) (g : Group) :
  group_of l g ->
  List.length (g_uniqueUsers g) = List.length (distinct_owners (of_event (g_id g) l)).
Proof.
  intros (_ & _ & Hnd & Hin). apply Permutation_length.
  apply NoDup_Permutation; [exact Hnd | apply NoDup_nodup |].
  intros u. unfold distinct_owners. rewrite nodup_In. apply Hin.
Qed.

End Grouping.

(** The totals the [forEach] of the handler leaves. *)
Lemma fold_add_event (stats : list Collection.EventStat) (t : TotalStats) :
  fold_left add_event stats t
  = {| total_totalMints := total_totalMints t + sum_Z (map Collection.totalMints stats);
       totalUniqueUsers := totalUniqueUsers t + sum_Z (map Collection.uniqueUserCount stats);
       events := events t |}.
Proof.
  revert t. induction stats as [|e r IH]; intros t; simpl.
  - destruct t; simpl. f_equal; lia.
  - rewrite IH. unfold add_event. simpl. f_equal; lia.
Qed.

(* ===================================================================== *)
(** * [saveNFT] *)
(* ===================================================================== *)

Section SaveNFT.

Variable rt : Runtime.

Lemma saveNFT_missing (req : SaveRequest) (wd : World) :
  some_required_falsy req = true ->
  saveNFT rt req wd = (Returned missing_fields_response, wd).
Proof.
  intros H. unfold saveNFT, try_catch, saveNFT_try. rewrite H. reflexivity.
Qed.

Lemma required_falsy (req : SaveRequest) (name : string) (v : option json) :
  In (name, v) (required_values req) -> truthy v = false ->
  some_required_falsy req = true.
Proof.
  unfold required_values, some_required_falsy. simpl. intros H Hv.
  repeat (destruct H as [H|H];
          [injection H as _ H; rewrite H, Hv; simpl; rewrite ?orb_true_r; reflexivity|]).
  destruct H.
Qed.

Lemma all_truthy_hash (req : SaveRequest) :
  some_required_falsy req = false -> truthy (body_transactionHash req) = true.
Proof.
  unfold some_required_falsy. intros H.
  repeat (apply orb_false_iff in H; destruct H as [H ?]).
  apply negb_false_iff. assumption.
Qed.

Lemma all_truthy_wallet (req : SaveRequest) :
  some_required_falsy req = false -> truthy (body_walletAddress req) = true.
Proof.
  unfold some_required_falsy. intros H.
  repeat (apply orb_false_iff in H; destruct H as [H ?]).
  apply negb_false_iff. assumption.
Qed.

Lemma absent_fields_some (req : SaveRequest) :
  absent_fields req <> [] -> exists name, In (name, None) (required_values req).
Proof.
  unfold absent_fields. intros H.
  destruct (filter _ (required_values req)) as [|[k v] r] eqn:E; [contradiction|].
  assert (In (k, v) (filter (fun kv : string * option json =>
             match snd kv with None => true | Some _ => false end)
           (required_values req))) as Hin by (rewrite E; left; reflexivity).
  apply filter_In in Hin. destruct Hin as [Hin Hv]. simpl in Hv.
  destruct v; [discriminate|]. exists k. exact Hin.
Qed.

(** The [toLowerCase] call of the duplicate check on a truthy non-string. *)
Lemma saveNFT_try_type_error (req : SaveRequest) (wd : World) (j : json) :
  some_required_falsy req = false ->
  body_transactionHash req = Some j ->
  ~ is_string j ->
  saveNFT_try rt req wd
  = (Thrown (TypeError "transactionHash.toLowerCase is not a function"), wd).
Proof.
  intros Hall Hj Hns. pose proof (all_truthy_hash req Hall) as Ht.
  unfold saveNFT_try. rewrite Hall, Hj. rewrite Hj in Ht.
  destruct j; simpl in Ht; try discriminate; try reflexivity.
  exfalso. apply Hns. eexists. reflexivity.
Qed.

Lemma find_some_in {A} (p : A -> bool) (l : list A) :
  (exists x, In x l /\ p x = true) -> exists y, find p l = Some y.
Proof.
  intros (x & Hx & Hp). destruct (find p l) as [y|] eqn:E; [exists y; reflexivity|].
  rewrite (find_none p l E x Hx) in Hp. discriminate.
Qed.

(** The duplicate check on a hash that is stored, whatever its case. *)
Lemma saveNFT_existing (req : SaveRequest) (wd : World) (h : string) :
  some_required_falsy req = false ->
  body_transactionHash req = Some (JStr h) ->
  (exists d, In d (docs wd) /\ transactionHash d = Js.toLowerCase h) ->
  exists existing,
    In existing (docs wd) /\
    transactionHash existing = Js.toLowerCase h /\
    saveNFT rt req wd
    = (Returned {| http_status := 409; success := false;
                   message := Some "NFT already recorded";
                   payload := ExistingRecord existing |},
       mkWorld (docs wd) (queries wd ++ [QFindOne (Js.toLowerCase h)])) /\
    find (fun x => String.eqb (transactionHash x) (Js.toLowerCase h)) (docs wd) = Some existing.
Proof.
  intros Hall Hh (d & Hd & Hhash).
  destruct (find_some_in (fun x => String.eqb (transactionHash x) (Js.toLowerCase h)) (docs wd))
    as [e He].
  { exists d. split; [exact Hd | apply String.eqb_eq; exact Hhash]. }
  exists e. pose proof (find_some _ _ He) as [Hin Heq]. apply String.eqb_eq in Heq.
  split; [exact Hin|]. split; [exact Heq|]. split; [|exact He].
  unfold saveNFT, try_catch, saveNFT_try. rewrite Hall, Hh.
  unfold bind, Model.call_toLowerCase, ret, Collection.findOne, bind, issue, read_docs, ret.
  simpl. rewrite He. reflexivity.
Qed.

Lemma nftData_error_type (req : SaveRequest) (e : JsError) :
  nftData_error req = Some e -> e = TypeError "Cannot convert object to primitive value".
Proof.
  unfold nftData_error.
  destruct (opt_chain (body_eventData req) "mintedAt") as [v|];
    [destruct (truthy (Some v) && to_primitive_throws v)|];
    try (intros [= <-]; reflexivity);
    (destruct (body_ipfsCid req) as [c|]; [destruct (to_primitive_throws c)|]);
    intros H; try discriminate H; injection H as <-; reflexivity.
Qed.


End SaveNFT.

(* ===================================================================== *)
(** * Properties of [saveNFT] *)
(* ===================================================================== *)

(** C1, as the code has it: when the six required properties are truthy and
    the transaction hash of the request, lowercased, is the hash of a stored
    record, [saveNFT] answers 409 with [success: false] and the message
    [NFT already recorded], the stored record as [data], and it writes
    nothing: the collection has received one [findOne] and is unchanged. *)
Theorem saveNFT_duplicate_is_conflict
    (rt : Runtime) (req : SaveRequest) (wd : World) (h : string) :
  some_required_falsy req = false ->
  body_transactionHash req = Some (JStr h) ->
  (exists d, In d (docs wd) /\ transactionHash d = Js.toLowerCase h) ->
  exists existing wd',
    saveNFT rt req wd
    = (Returned {| http_status := 409; success := false;
                   message := Some "NFT already recorded";
                   payload := ExistingRecord existing |}, wd') /\
    In existing (docs wd) /\
    transactionHash existing = Js.toLowerCase h /\
    docs wd' = docs wd /\
    queries wd' = (queries wd ++ [QFindOne (Js.toLowerCase h)])%list.
Proof.
  intros Hall Hh Hd.
  destruct (saveNFT_existing rt req wd h Hall Hh Hd) as (e & Hin & Hhash & Hrun & _).
  exists e. eexists. split; [exact Hrun|]. simpl. auto.
Qed.

Lemma saveNFT_duplicate_is_conflict_witness :
  exists existing wd',
    saveNFT (Sample.rt 1700000000100)
      (Sample.request Sample.wallet (Some (JStr (Sample.hash_of "A"))))
      (Sample.saved Sample.wallet ["a"%char])
    = (Returned {| http_status := 409; success := false;
                   message := Some "NFT already recorded";
                   payload := ExistingRecord existing |}, wd') /\
    transactionHash existing = Sample.hash_of "a".
Proof.
  destruct (saveNFT_duplicate_is_conflict (Sample.rt 1700000000100)
              (Sample.request Sample.wallet (Some (JStr (Sample.hash_of "A"))))
              (Sample.saved Sample.wallet ["a"%char]) (Sample.hash_of "A"))
    as (e & wd' & Hrun & _ & Hhash & _).
  - reflexivity.
  - reflexivity.
  - eexists. split; [left; reflexivity | vm_compute; reflexivity].
  - exists e, wd'. split; [exact Hrun | exact Hhash].
Defined.

(** C1, as the specification words it, fails: a valid payload (on the empty
    collection it is saved with 201 and [success: true]) whose hash is
    already stored gets [success: false] under status 409. *)
Lemma saveNFT_duplicate_is_not_success :
  option_map success
    (returned (fst (saveNFT (Sample.rt 1700000000100)
                      (Sample.request Sample.wallet (Some (JStr (Sample.hash_of "A"))))
                      Sample.empty))) = Some true /\
  option_map success
    (returned (fst (saveNFT (Sample.rt 1700000000100)
                      (Sample.request Sample.wallet (Some (JStr (Sample.hash_of "A"))))
                      (Sample.saved Sample.wallet ["a"%char])))) = Some false /\
  option_map http_status
    (returned (fst (saveNFT (Sample.rt 1700000000100)
                      (Sample.request Sample.wallet (Some (JStr (Sample.hash_of "A"))))
                      (Sample.saved Sample.wallet ["a"%char])))) = Some 409.
Proof. vm_compute. repeat split; reflexivity. Qed.

(** C2, as the code has it: a save request that lacks at least one of the six
    required properties is answered 400, [Missing required fields], with the
    fixed list of all six names under [required], and the collection is
    neither queried nor changed. *)
Theorem saveNFT_missing_fields_lists_all_six
    (rt : Runtime) (req : SaveRequest) (wd : World) :
  absent_fields req <> [] ->
  saveNFT rt req wd
  = (Returned {| http_status := 400; success := false;
                 message := Some "Missing required fields";
                 payload := RequiredFields
                              ["walletAddress"; "ipfsCid"; "metadataUri"; "tokenId";
                               "contractAddress"; "transactionHash"] |}, wd).
Proof.
  intros H. destruct (absent_fields_some req H) as [name Hin].
  apply saveNFT_missing. apply (required_falsy req name None Hin). reflexivity.
Qed.

Lemma saveNFT_missing_fields_lists_all_six_witness :
  absent_fields Sample.request_no_wallet = ["walletAddress"] /\
  saveNFT (Sample.rt 0) Sample.request_no_wallet Sample.empty
  = (Returned {| http_status := 400; success := false;
                 message := Some "Missing required fields";
                 payload := RequiredFields
                              ["walletAddress"; "ipfsCid"; "metadataUri"; "tokenId";
                               "contractAddress"; "transactionHash"] |}, Sample.empty).
Proof.
  split; [reflexivity|].
  apply (saveNFT_missing_fields_lists_all_six (Sample.rt 0) Sample.request_no_wallet Sample.empty).
  vm_compute. discriminate.
Defined.

(** C2, as the specification words it, fails: with only [walletAddress]
    absent, the reported list also names [ipfsCid], which the body has. *)
Lemma saveNFT_missing_fields_not_the_absent_ones :
  absent_fields Sample.request_no_wallet = ["walletAddress"] /\
  exists reported wd',
    saveNFT (Sample.rt 0) Sample.request_no_wallet Sample.empty
    = (Returned {| http_status := 400; success := false;
                   message := Some "Missing required fields";
                   payload := RequiredFields reported |}, wd') /\
    In "ipfsCid" reported /\
    ~ In "ipfsCid" (absent_fields Sample.request_no_wallet).
Proof.
  split; [reflexivity|]. do 2 eexists. split; [reflexivity|]. split.
  - right. left. reflexivity.
  - vm_compute. intros [H|[]]. discriminate.
Qed.

(** C9: a required property that is present with a falsy value (the empty
    string, 0, false or null) makes [saveNFT] answer as for a missing one,
    400 [Missing required fields], and the collection is neither queried nor
    changed. *)
Theorem saveNFT_falsy_field_is_missing
    (rt : Runtime) (req : SaveRequest) (wd : World) (name : string) (j : json) :
  In (name, Some j) (required_values req) ->
  falsy_json j ->
  saveNFT rt req wd
  = (Returned {| http_status := 400; success := false;
                 message := Some "Missing required fields";
                 payload := RequiredFields
                              ["walletAddress"; "ipfsCid"; "metadataUri"; "tokenId";
                               "contractAddress"; "transactionHash"] |}, wd).
Proof.
  intros Hin Hj. apply saveNFT_missing. apply (required_falsy req name (Some j) Hin).
  destruct Hj as [-> | [-> | [-> | ->]]]; reflexivity.
Qed.

Lemma saveNFT_falsy_field_is_missing_witness :
  saveNFT (Sample.rt 0) (Sample.request Sample.wallet (Some (JStr ""))) Sample.fifteen
  = (Returned missing_fields_response, Sample.fifteen) /\
  saveNFT (Sample.rt 0) (Sample.request Sample.wallet (Some (JNum 0))) Sample.fifteen
  = (Returned missing_fields_response, Sample.fifteen) /\
  saveNFT (Sample.rt 0) (Sample.request Sample.wallet (Some (JBool false))) Sample.fifteen
  = (Returned missing_fields_response, Sample.fifteen) /\
  saveNFT (Sample.rt 0) (Sample.request Sample.wallet (Some JNull)) Sample.fifteen
  = (Returned missing_fields_response, Sample.fifteen).
Proof.
  split; [|split; [|split]].
  - apply (saveNFT_falsy_field_is_missing (Sample.rt 0) _ Sample.fifteen "transactionHash" (JStr ""));
      [simpl; tauto | left; reflexivity].
  - apply (saveNFT_falsy_field_is_missing (Sample.rt 0) _ Sample.fifteen "transactionHash" (JNum 0));
      [simpl; tauto | right; left; reflexivity].
  - apply (saveNFT_falsy_field_is_missing (Sample.rt 0) _ Sample.fifteen "transactionHash" (JBool false));
      [simpl; tauto | right; right; left; reflexivity].
  - apply (saveNFT_falsy_field_is_missing (Sample.rt 0) _ Sample.fifteen "transactionHash" JNull);
      [simpl; tauto | right; right; right; reflexivity].
Defined.

(** C10: when the six required properties are truthy (the request reaches
    the duplicate check) and [transactionHash] is not a string, the
    [toLowerCase] call of the check throws a [TypeError], the [catch] block
    answers 500 [Failed to save NFT], not a 400, and the collection is
    neither queried nor changed. *)
Theorem saveNFT_non_string_hash_is_500
    (rt : Runtime) (req : SaveRequest) (wd : World) (j : json) :
  some_required_falsy req = false ->
  body_transactionHash req = Some j ->
  ~ is_string j ->
  saveNFT_try rt req wd
  = (Thrown (TypeError "transactionHash.toLowerCase is not a function"), wd) /\
  saveNFT rt req wd
  = (Returned {| http_status := 500; success := false;
                 message := Some "Failed to save NFT";
                 payload := ErrorText
                   (shown_error rt (TypeError "transactionHash.toLowerCase is not a function")) |},
     wd).
Proof.
  intros Hall Hj Hns.
  pose proof (saveNFT_try_type_error rt req wd j Hall Hj Hns) as E.
  split; [exact E|]. unfold saveNFT, try_catch. rewrite E. reflexivity.
Qed.

Lemma saveNFT_non_string_hash_is_500_witness :
  saveNFT (Sample.rt 0) (Sample.request Sample.wallet (Some (JNum 12345))) Sample.empty
  = (Returned {| http_status := 500; success := false;
                 message := Some "Failed to save NFT";
                 payload := ErrorText "Internal server error" |}, Sample.empty).
Proof.
  apply (saveNFT_non_string_hash_is_500 (Sample.rt 0)
           (Sample.request Sample.wallet (Some (JNum 12345))) Sample.empty (JNum 12345)).
  - reflexivity.
  - reflexivity.
  - intros [s Hs]. discriminate Hs.
Defined.

(* ===================================================================== *)
(** * [getUserNFTs] *)
(* ===================================================================== *)

Section GetUserNFTs.

Import Collection.

Variable rt : Runtime.

Lemma invalid_wallet_false (w : string) :
  matches_address_pattern w -> invalid_wallet w = false.
Proof.
  intros H. unfold invalid_wallet. rewrite (proj2 (address_re_iff w) H).
  destruct H as (t & -> & _). reflexivity.
Qed.

Lemma getUserNFTs_invalid (req : ListRequest) (wd : World) :
  invalid_wallet (param_walletAddress req) = true ->
  getUserNFTs rt req wd
  = (Returned {| http_status := 400; success := false;
                 message := Some "Invalid wallet address format";
                 payload := NoPayload |}, wd).
Proof.
  intros H. unfold getUserNFTs, try_catch, getUserNFTs_try. rewrite H. reflexivity.
Qed.

(** The answer to a well-formed request, in terms of the collection. *)
Lemma getUserNFTs_ok (req : ListRequest) (wd : World) (w : string) (page limit : Z)
    (stored : list NFT) :
  invalid_wallet (param_walletAddress req) = false ->
  w = Js.toLowerCase (param_walletAddress req) ->
  page = Js.parseInt_or (query_page req) 1 ->
  limit = Js.parseInt_or (query_limit req) 10 ->
  0 <= (page - 1) * limit ->
  stored = map select_public
             (apply_limit limit
                (skipn (Z.to_nat ((page - 1) * limit))
                   (sort_desc (filter (owned_confirmed w) (docs wd))))) ->
  exists meta,
    getUserNFTs rt req wd
    = (Returned
         {| http_status := 200; success := true; message := None;
            payload :=
              NFTPage (map (enrich rt) stored)
                {| currentPage := page;
                   totalPages :=
                     Js.ceil_div (Z.of_nat (List.length (filter (owned_confirmed w) (docs wd)))) limit;
                   totalCount := Z.of_nat (List.length (filter (owned_confirmed w) (docs wd)));
                   hasNextPage :=
                     page <? Js.ceil_div (Z.of_nat (List.length (filter (owned_confirmed w) (docs wd)))) limit;
                   hasPrevPage := 1 <? page;
                   limit := limit |}
                meta |},
       mkWorld (docs wd) ((queries wd ++ [QFind w ((page - 1) * limit) limit]) ++ [QCount w])) /\
    meta_walletAddress meta = w.
Proof.
  intros Hv -> -> -> Hskip ->. eexists.
  unfold getUserNFTs, try_catch, getUserNFTs_try. rewrite Hv.
  unfold bind at 1. unfold find_page, bind, issue, read_docs, ret, throw. simpl.
  destruct (Z.ltb_spec ((Js.parseInt_or (query_page req) 1 - 1) * Js.parseInt_or (query_limit req) 10) 0)
    as [Hneg|_]; [lia|].
  split; reflexivity.
Qed.

End GetUserNFTs.



Lemma confirmed_record_ofb_spec (owner : string) (d : NFT) :
  confirmed_record_ofb owner d = true <-> confirmed_record_of owner d.
Proof.
  unfold confirmed_record_ofb, confirmed_record_of.
  destruct (status d); rewrite ?String.eqb_eq; split;
    try (intros H; discriminate H); try (intros [_ H]; discriminate H).
  - intros ->. split; reflexivity.
  - intros [-> _]. reflexivity.
Qed.

(** The filter of the query selects the confirmed records of the owner. *)
Lemma owned_confirmed_records (owner : string) (l : list NFT) :
  filter (Collection.owned_confirmed owner) l = filter (confirmed_record_ofb owner) l.
Proof.
  apply filter_ext. intros d.
  unfold Collection.owned_confirmed, confirmed_record_ofb.
  rewrite String.eqb_sym. destruct (status d); simpl; rewrite ?andb_true_r, ?andb_false_r; reflexivity.
Qed.

(** The page a well-formed request with positive [page] and [limit] gets. *)
Lemma getUserNFTs_page
    (rt : Runtime) (req : ListRequest) (wd : World) (page limit : Z) :
  matches_address_pattern (param_walletAddress req) ->
  Js.parseInt_or (query_page req) 1 = page ->
  Js.parseInt_or (query_limit req) 10 = limit ->
  0 < page ->
  0 < limit ->
  exists nfts pg meta wd' ordered,
    getUserNFTs rt req wd
    = (Returned {| http_status := 200; success := true; message := None;
                   payload := NFTPage nfts pg meta |}, wd') /\
    Permutation ordered
      (filter (confirmed_record_ofb (Js.toLowerCase (param_walletAddress req))) (docs wd)) /\
    (forall d, In d ordered
               <-> In d (docs wd) /\
                   confirmed_record_of (Js.toLowerCase (param_walletAddress req)) d) /\
    Sorted newer_first ordered /\
    map nft nfts
    = map Collection.select_public
        (firstn (Z.to_nat limit) (skipn (Z.to_nat ((page - 1) * limit)) ordered)) /\
    Z.of_nat (List.length nfts) <= limit /\
    totalCount pg = Z.of_nat (List.length ordered) /\
    (totalPages pg - 1) * limit < totalCount pg <= totalPages pg * limit /\
    totalPages pg = Js.ceil_div (totalCount pg) limit /\
    hasNextPage pg = (page <? totalPages pg) /\
    hasPrevPage pg = (1 <? page) /\
    currentPage pg = page /\
    Controller.limit pg = limit.
Proof.
  intros Haddr Hpage Hlimit Hp Hl.
  set (w := Js.toLowerCase (param_walletAddress req)).
  set (matching := filter (Collection.owned_confirmed w) (docs wd)).
  destruct (getUserNFTs_ok rt req wd w page limit _
              (invalid_wallet_false _ Haddr) eq_refl (eq_sym Hpage) (eq_sym Hlimit)
              ltac:(nia) eq_refl) as (meta & Hrun & _).
  fold matching in Hrun.
  assert (Collection.apply_limit limit
            (skipn (Z.to_nat ((page - 1) * limit)) (Collection.sort_desc matching))
          = firstn (Z.to_nat limit)
              (skipn (Z.to_nat ((page - 1) * limit)) (Collection.sort_desc matching))) as Hlim.
  { unfold Collection.apply_limit. destruct (Z.eqb_spec limit 0) as [E|_]; [lia|].
    rewrite Z.abs_eq by lia. reflexivity. }
  rewrite Hlim in Hrun.
  do 4 eexists. exists (Collection.sort_desc matching).
  split; [exact Hrun|]. cbn [totalCount totalPages hasNextPage hasPrevPage currentPage
                             Controller.limit].
  assert (List.length (Collection.sort_desc matching) = List.length matching) as Hlen
    by apply sort_desc_length.
  split; [unfold matching; rewrite <- owned_confirmed_records; apply sort_desc_perm|].
  split.
  { intros d. rewrite <- confirmed_record_ofb_spec, <- filter_In, <- owned_confirmed_records.
    fold w. fold matching. split; intros Hd.
    - apply (Permutation_in _ (sort_desc_perm matching)). exact Hd.
    - apply (Permutation_in _ (Permutation_sym (sort_desc_perm matching))). exact Hd. }
  split; [apply sort_desc_sorted|].
  split; [rewrite map_map; simpl; rewrite map_id; reflexivity|].
  split.
  { rewrite !length_map, length_firstn. lia. }
  split; [rewrite Hlen; reflexivity|].
  split; [apply ceil_div_bounds; exact Hl|].
  repeat split.
Qed.

(** C3: for a list request with a well-formed owner address and positive
    [page] and [limit] that the code holds exactly ([page * limit] at most
    [Number.MAX_SAFE_INTEGER]), the records returned are, in order, those at
    offsets [(page-1)*limit] up to [limit] further of the confirmed records
    of that owner (the stored records whose address is the lowercased owner
    and whose status is [confirmed], each as often as it is stored) sorted
    by [createdAt] descending; [totalCount] is the number of these records,
    [totalPages] is [ceil(totalCount/limit)] (the integer [n] with
    [(n-1)*limit < totalCount <= n*limit]), [hasNextPage] is
    [page < totalPages] and [hasPrevPage] is [page > 1]. With 15 records,
    page 2 and limit 10: five records, two pages, no next page, a previous
    page. *)
Theorem getUserNFTs_pagination
    (rt : Runtime) (req : ListRequest) (wd : World) (page limit : Z) :
  matches_address_pattern (param_walletAddress req) ->
  Js.parseInt_or (query_page req) 1 = page ->
  Js.parseInt_or (query_limit req) 10 = limit ->
  0 < page ->
  0 < limit ->
  page * limit <= max_safe_integer ->
  exists nfts pg meta wd' ordered,
    getUserNFTs rt req wd
    = (Returned {| http_status := 200; success := true; message := None;
                   payload := NFTPage nfts pg meta |}, wd') /\
    Permutation ordered
      (filter (confirmed_record_ofb (Js.toLowerCase (param_walletAddress req))) (docs wd)) /\
    (forall d, In d ordered
               <-> In d (docs wd) /\
                   walletAddress d = Js.toLowerCase (param_walletAddress req) /\
                   status d = confirmed) /\
    Sorted newer_first ordered /\
    map nft nfts
    = map Collection.select_public
        (firstn (Z.to_nat limit) (skipn (Z.to_nat ((page - 1) * limit)) ordered)) /\
    Z.of_nat (List.length nfts) <= limit /\
    totalCount pg = Z.of_nat (List.length ordered) /\
    (totalPages pg - 1) * limit < totalCount pg <= totalPages pg * limit /\
    totalPages pg = Js.ceil_div (totalCount pg) limit /\
    hasNextPage pg = (page <? totalPages pg) /\
    hasPrevPage pg = (1 <? page) /\
    (totalCount pg = 15 -> page = 2 -> limit = 10 ->
     List.length nfts = 5%nat /\ totalPages pg = 2 /\
     hasNextPage pg = false /\ hasPrevPage pg = true).
Proof.
  intros Haddr Hpage Hlimit Hp Hl _.
  destruct (getUserNFTs_page rt req wd page limit Haddr Hpage Hlimit Hp Hl)
    as (nfts & pg & meta & wd' & ordered & Hrun & Hperm & Hmem & Hsorted & Hslice
        & Hbound & Hcount & Hceil & Htp & Hnext & Hprev & _).
  exists nfts, pg, meta, wd', ordered.
  split; [exact Hrun|]. split; [exact Hperm|]. split; [exact Hmem|].
  split; [exact Hsorted|]. split; [exact Hslice|]. split; [exact Hbound|].
  split; [exact Hcount|]. split; [exact Hceil|]. split; [exact Htp|].
  split; [exact Hnext|]. split; [exact Hprev|].
  intros H15 -> ->.
  assert (List.length ordered = 15%nat) as Hlen by lia.
  assert (List.length nfts = 5%nat) as Hn.
  { rewrite <- (length_map nft), Hslice, !length_map, length_firstn, length_skipn, Hlen.
    reflexivity. }
  split; [exact Hn|]. rewrite Hnext, Hprev, Htp, H15. repeat split.
Qed.

Lemma getUserNFTs_pagination_witness :
  exists nfts pg meta wd',
    getUserNFTs (Sample.rt 1700000000200)
      (mkListRequest Sample.wallet (Some "2") (Some "10")) sample_mixed
    = (Returned {| http_status := 200; success := true; message := None;
                   payload := NFTPage nfts pg meta |}, wd') /\
    List.length (docs sample_mixed) = 17%nat /\
    List.length nfts = 5%nat /\ totalCount pg = 15 /\ totalPages pg = 2 /\
    hasNextPage pg = false /\ hasPrevPage pg = true /\
    map (fun e => transactionHash (nft e)) nfts
    = [Sample.hash_of "4"; Sample.hash_of "3"; Sample.hash_of "2";
       Sample.hash_of "1"; Sample.hash_of "0"].
Proof.
  destruct (getUserNFTs_pagination (Sample.rt 1700000000200)
              (mkListRequest Sample.wallet (Some "2") (Some "10")) sample_mixed 2 10)
    as (nfts & pg & meta & wd' & ordered & Hrun & Hperm & _ & _ & _ & _ & Hcount & _ & _ & _ & _ & H15).
  - apply address_re_iff. vm_compute. reflexivity.
  - vm_compute. reflexivity.
  - vm_compute. reflexivity.
  - lia.
  - lia.
  - vm_compute. discriminate.
  - assert (totalCount pg = 15) as Hc.
    { rewrite Hcount, (Permutation_length Hperm). vm_compute. reflexivity. }
    destruct (H15 Hc eq_refl eq_refl) as (Hn & Htp & Hnext & Hprev).
    exists nfts, pg, meta, wd'. split; [exact Hrun|]. split; [vm_compute; reflexivity|].
    do 5 (split; [assumption|]).
    vm_compute in Hrun. injection Hrun as <- _ _ _. vm_compute. reflexivity.
Defined.

(** C8: every record of a list response is a stored record (without
    [userAgent] and [ipAddress]) together with three fields computed from
    it: the gateway URL of its [ipfsCid], the explorer URL of its
    [transactionHash] on [basescan.org] exactly when [networkChainId] is
    8453 and on [sepolia.basescan.org] otherwise, both as the virtuals of
    the schema compute them, and [daysAgo], the floor of the time since
    [mintedAt] divided by one day. The handler leaves the collection as it
    was. *)
Theorem getUserNFTs_enrichment
    (rt : Runtime) (req : ListRequest) (wd : World) :
  matches_address_pattern (param_walletAddress req) ->
  0 <= (Js.parseInt_or (query_page req) 1 - 1) * Js.parseInt_or (query_limit req) 10 ->
  exists nfts pg meta wd',
    getUserNFTs rt req wd
    = (Returned {| http_status := 200; success := true; message := None;
                   payload := NFTPage nfts pg meta |}, wd') /\
    docs wd' = docs wd /\
    Forall
      (fun e =>
         (exists d, In d (docs wd) /\ nft e = Collection.select_public d) /\
         e_pinataImageUrl e = "https://gateway.pinata.cloud/ipfs/" ++ ipfsCid (nft e) /\
         (networkChainId (nft e) = 8453 ->
          e_blockExplorerUrl e = "https://basescan.org/tx/" ++ transactionHash (nft e)) /\
         (networkChainId (nft e) <> 8453 ->
          e_blockExplorerUrl e = "https://sepolia.basescan.org/tx/" ++ transactionHash (nft e)) /\
         e_blockExplorerUrl e = blockExplorerUrl (nft e) /\
         (ipfsCid (nft e) <> "" -> pinataImageUrl (nft e) = Some (e_pinataImageUrl e)) /\
         daysAgo e * 86400000 <= Date_now rt - mintedAt (nft e) < (daysAgo e + 1) * 86400000)
      nfts.
Proof.
  intros Haddr Hskip.
  destruct (getUserNFTs_ok rt req wd _ _ _ _
              (invalid_wallet_false _ Haddr) eq_refl eq_refl eq_refl Hskip eq_refl)
    as (meta & Hrun & _).
  do 4 eexists. split; [exact Hrun|]. split; [reflexivity|].
  apply Forall_forall. intros e He.
  apply in_map_iff in He. destruct He as (d & <- & Hd).
  apply in_map_iff in Hd. destruct Hd as (d0 & <- & Hd0).
  apply page_members in Hd0. destruct Hd0 as (Hin & _).
  split; [exists d0; split; [exact Hin | reflexivity]|].
  split; [reflexivity|].
  unfold enrich, blockExplorerUrl, pinataImageUrl. simpl.
  split; [intros ->; reflexivity|].
  split; [intros Hne; destruct (Z.eqb_spec (networkChainId d0) 8453); [contradiction | reflexivity]|].
  split; [destruct (networkChainId d0 =? 8453); reflexivity|].
  split.
  - intros Hne. destruct (String.eqb_spec (ipfsCid d0) ""); [contradiction | reflexivity].
  - apply (floor_div_bounds (Date_now rt - mintedAt d0) 86400000). lia.
Qed.

Lemma getUserNFTs_enrichment_witness :
  exists nfts pg meta wd',
    getUserNFTs (Sample.rt 1700172800000)
      (mkListRequest Sample.wallet None None) (Sample.saved Sample.wallet ["a"%char])
    = (Returned {| http_status := 200; success := true; message := None;
                   payload := NFTPage nfts pg meta |}, wd') /\
    map daysAgo nfts = [1] /\
    map e_blockExplorerUrl nfts = ["https://basescan.org/tx/" ++ Sample.hash_of "a"].
Proof.
  destruct (getUserNFTs_enrichment (Sample.rt 1700172800000)
              (mkListRequest Sample.wallet None None) (Sample.saved Sample.wallet ["a"%char]))
    as (nfts & pg & meta & wd' & Hrun & _ & _).
  - apply address_re_iff. vm_compute. reflexivity.
  - vm_compute. discriminate.
  - exists nfts, pg, meta, wd'. split; [exact Hrun|].
    vm_compute in Hrun. injection Hrun as <- _ _ _. vm_compute. split; reflexivity.
Defined.

(* ===================================================================== *)
(** * Records that are not confirmed *)
(* ===================================================================== *)

Section Unconfirmed.

Import Collection.

Lemma owned_confirmed_filter (w : string) (l : list NFT) :
  filter (owned_confirmed w) (filter is_confirmed l) = filter (owned_confirmed w) l.
Proof. apply filter_filter. apply owned_confirmed_is_confirmed. Qed.

Lemma countDocuments_confirmed_only (w : string) (wd : World) :
  fst (countDocuments w (confirmed_only wd)) = fst (countDocuments w wd).
Proof.
  unfold countDocuments, bind, issue, read_docs, ret. simpl.
  rewrite owned_confirmed_filter. reflexivity.
Qed.

Lemma find_page_confirmed_only (w : string) (skip limit : Z) (wd : World) :
  fst (find_page w skip limit (confirmed_only wd)) = fst (find_page w skip limit wd).
Proof.
  unfold find_page, bind, issue, read_docs, ret, throw. simpl.
  rewrite owned_confirmed_filter. destruct (skip <? 0); reflexivity.
Qed.

Lemma aggregate_confirmed_only (wd : World) :
  fst (aggregate_event_stats (confirmed_only wd)) = fst (aggregate_event_stats wd).
Proof.
  unfold aggregate_event_stats, bind, issue, read_docs, ret. simpl.
  rewrite filter_idem. reflexivity.
Qed.

End Unconfirmed.

(** C4: the three read operations give the same result on a collection and
    on what is left of it when every record whose status is not [confirmed]
    is taken out; the count is the number of confirmed records of the owner,
    the page holds confirmed records only, and the statistics are those of
    the confirmed records. The same holds of the two handlers that read. *)
Theorem reads_exclude_unconfirmed
    (rt : Runtime) (wd : World) (w : string) (skip limit : Z) (req : ListRequest) :
  fst (Model.getUserNFTCount (Some (JStr w)) wd)
  = fst (Model.getUserNFTCount (Some (JStr w)) (confirmed_only wd)) /\
  fst (Model.getUserNFTCount (Some (JStr w)) wd)
  = Returned (Z.of_nat (List.length
       (filter (fun d => String.eqb (walletAddress d) (Js.toLowerCase w))
          (filter Collection.is_confirmed (docs wd))))) /\
  fst (Collection.find_page w skip limit wd)
  = fst (Collection.find_page w skip limit (confirmed_only wd)) /\
  (forall page, fst (Collection.find_page w skip limit wd) = Returned page ->
                Forall (fun d => status d = confirmed) page) /\
  fst (Model.getEventStats wd) = fst (Model.getEventStats (confirmed_only wd)) /\
  fst (Model.getEventStats wd)
  = Returned (map Collection.project_stage
                (Collection.group_stage (filter Collection.is_confirmed (docs wd)))) /\
  fst (getUserNFTs rt req wd) = fst (getUserNFTs rt req (confirmed_only wd)) /\
  fst (getEventStats rt wd) = fst (getEventStats rt (confirmed_only wd)).
Proof.
  split.
  { unfold Model.getUserNFTCount, Model.call_toLowerCase, bind, ret.
    symmetry. apply countDocuments_confirmed_only. }
  split.
  { unfold Model.getUserNFTCount, Model.call_toLowerCase, bind, ret,
      Collection.countDocuments, bind, issue, read_docs, ret. simpl.
    do 3 f_equal. rewrite <- owned_confirmed_filter.
    apply filter_ext_in. intros d Hd. apply filter_In in Hd. destruct Hd as [_ Hc].
    unfold Collection.owned_confirmed. unfold Collection.is_confirmed in Hc.
    rewrite Hc. apply andb_true_r. }
  split; [symmetry; apply find_page_confirmed_only|].
  split.
  { unfold Collection.find_page, bind, issue, read_docs, ret, throw. simpl.
    destruct (skip <? 0); simpl; [discriminate|].
    intros page [= <-]. apply Forall_forall. intros d Hd.
    apply in_map_iff in Hd. destruct Hd as (d0 & <- & Hd0).
    apply page_members in Hd0. simpl. tauto. }
  split; [symmetry; apply aggregate_confirmed_only|].
  split; [reflexivity|].
  split.
  - unfold getUserNFTs, try_catch, getUserNFTs_try.
    destruct (invalid_wallet (param_walletAddress req)); [reflexivity|].
    unfold bind at 1 3.
    pose proof (find_page_confirmed_only (Js.toLowerCase (param_walletAddress req))
                  ((Js.parseInt_or (query_page req) 1 - 1) * Js.parseInt_or (query_limit req) 10)
                  (Js.parseInt_or (query_limit req) 10) wd) as Hf.
    unfold Collection.find_page, bind, issue, read_docs, ret, throw in *. simpl in *.
    destruct (_ <? 0); simpl; [reflexivity|].
    injection Hf as Hf. rewrite Hf, owned_confirmed_filter. reflexivity.
  - unfold getEventStats, try_catch, getEventStats_try, Model.getEventStats,
      Collection.aggregate_event_stats, bind, issue, read_docs, ret. simpl.
    rewrite filter_idem. reflexivity.
Qed.

(* ===================================================================== *)
(** * [getEventStats] *)
(* ===================================================================== *)

Lemma project_stage_ids (gs : list Collection.Group) :
  map Collection.stat_eventName (map Collection.project_stage gs) = map Collection.g_id gs.
Proof. rewrite map_map. reflexivity. Qed.

(** C6: the statistics have one row per event name among the confirmed
    records; the row's [totalMints] is the number of confirmed records of
    that event and its [uniqueUserCount] the number of distinct
    [walletAddress] values among them; the handler's [totalMints] and
    [totalUniqueUsers] are the sums of the two columns. On a collection with
    event A minted three times by two owners and event B once, the rows are
    A (3, 2) and B (1, 1) and the totals 4 and 3. *)
Theorem getEventStats_totals :
  (forall (rt : Runtime) (wd : World),
     exists stats wd',
       getEventStats rt wd
       = (Returned {| http_status := 200; success := true; message := None;
                      payload :=
                        Stats {| total_totalMints := sum_Z (map Collection.totalMints stats);
                                 totalUniqueUsers := sum_Z (map Collection.uniqueUserCount stats);
                                 events := stats |} |}, wd') /\
       docs wd' = docs wd /\
       NoDup (map Collection.stat_eventName stats) /\
       (forall name,
          In name (map Collection.stat_eventName stats)
          <-> exists d, In d (docs wd) /\ status d = confirmed /\ eventName d = name) /\
       Forall
         (fun e =>
            Collection.totalMints e
            = Z.of_nat (List.length
                (of_event (Collection.stat_eventName e)
                   (filter Collection.is_confirmed (docs wd)))) /\
            Collection.uniqueUserCount e
            = Z.of_nat (List.length
                (distinct_owners
                   (of_event (Collection.stat_eventName e)
                      (filter Collection.is_confirmed (docs wd))))))
         stats) /\
  fst (getEventStats (Sample.rt 0) Sample.two_events)
  = Returned
      {| http_status := 200; success := true; message := None;
         payload :=
           Stats {| total_totalMints := 4;
                    totalUniqueUsers := 3;
                    events :=
                      [Collection.mkEventStat "A" "A" 3 2 1700000000000 1700000000000;
                       Collection.mkEventStat "B" "B" 1 1 1700000000000 1700000000000] |} |}.
Proof.
  split; [|vm_compute; reflexivity].
  intros rt wd.
  set (l := filter Collection.is_confirmed (docs wd)).
  destruct (group_stage_groups l) as (Hnd & Hall & Hcov).
  exists (map Collection.project_stage (Collection.group_stage l)). eexists.
  split.
  { unfold getEventStats, try_catch, getEventStats_try, Model.getEventStats,
      Collection.aggregate_event_stats, bind, issue, read_docs, ret. simpl.
    fold l. rewrite fold_add_event. simpl. reflexivity. }
  split; [reflexivity|].
  rewrite project_stage_ids.
  split; [exact Hnd|].
  split.
  - intros name. split.
    + intros Hin. apply in_map_iff in Hin. destruct Hin as (g & <- & Hg).
      rewrite Forall_forall in Hall. destruct (Hall g Hg) as (_ & Hne & _).
      destruct (of_event (Collection.g_id g) l) as [|d r] eqn:E; [contradiction|].
      assert (In d (of_event (Collection.g_id g) l)) as Hd by (rewrite E; left; reflexivity).
      unfold of_event in Hd. apply filter_In in Hd. destruct Hd as [Hdl Hev].
      apply filter_In in Hdl. destruct Hdl as [Hdw Hst].
      exists d. repeat split; [exact Hdw | apply Status_eqb_eq; exact Hst | apply String.eqb_eq; exact Hev].
    + intros (d & Hd & Hst & <-). apply Hcov. apply filter_In. split; [exact Hd|].
      apply Status_eqb_eq. exact Hst.
  - apply Forall_forall. intros e He. apply in_map_iff in He. destruct He as (g & <- & Hg).
    rewrite Forall_forall in Hall. pose proof (Hall g Hg) as Hgo.
    simpl. split.
    + destruct Hgo as (Hn & _). exact Hn.
    + rewrite (group_unique_count l g Hgo). reflexivity.
Qed.

(* ===================================================================== *)
(** * Lowercase identity of addresses and hashes *)
(* ===================================================================== *)

Section Lowercase.

Variable rt : Runtime.

(** The three lowercased paths of the document that [saveNFT] writes. *)
Lemma written_document_lowercase (req : SaveRequest) :
  let d := Schema.pre_save (Schema.to_NFT rt (Schema.new_NFT (nftData rt req))) in
  is_lowercase (walletAddress d) = true /\
  is_lowercase (contractAddress d) = true /\
  is_lowercase (transactionHash d) = true /\
  (forall s, body_walletAddress req = Some (JStr s) -> walletAddress d = Js.toLowerCase s) /\
  (forall s, body_contractAddress req = Some (JStr s) -> contractAddress d = Js.toLowerCase s) /\
  (forall s, body_transactionHash req = Some (JStr s) -> transactionHash d = Js.toLowerCase s).
Proof.
  simpl.
  split; [apply stored_path_is_lowercase|].
  split; [apply stored_path_is_lowercase|].
  split; [apply stored_path_is_lowercase|].
  split; [|split]; intros s ->; simpl; apply lower_if_set_lower.
Qed.


End Lowercase.




(* ===================================================================== *)
(** * The schema patterns under the lowercase setter *)
(* ===================================================================== *)

Section Patterns.

Lemma is_hex_lower (c : ascii) : Js.is_hex c = true -> Js.is_hex (Js.lower_char c) = true.
Proof. destruct c as [[] [] [] [] [] [] [] []]; vm_compute; intros H; exact H || reflexivity. Qed.

Lemma toLowerCase_app (a b : string) :
  Js.toLowerCase (a ++ b) = Js.toLowerCase a ++ Js.toLowerCase b.
Proof. induction a as [|c r IH]; simpl; [reflexivity | rewrite IH; reflexivity]. Qed.

Lemma toLowerCase_length (s : string) : String.length (Js.toLowerCase s) = String.length s.
Proof. induction s as [|c r IH]; simpl; [reflexivity | rewrite IH; reflexivity]. Qed.

Lemma all_chars_lower (cls : ascii -> bool) (s : string) :
  (forall c, cls c = true -> cls (Js.lower_char c) = true) ->
  Js.all_chars cls s = true -> Js.all_chars cls (Js.toLowerCase s) = true.
Proof.
  intros Hcls. induction s as [|c r IH]; simpl; [reflexivity|].
  intros H. apply andb_true_iff in H. destruct H as [Hc Hr].
  rewrite (Hcls c Hc), (IH Hr). reflexivity.
Qed.

(** A pattern with a lowercase literal and a class closed under lowercasing
    still matches once its subject is lowercased. *)
Lemma prefix_then_class_lower (p : string) (cls : ascii -> bool) (n : nat) (s : string) :
  Js.toLowerCase p = p ->
  (forall c, cls c = true -> cls (Js.lower_char c) = true) ->
  Js.prefix_then_class p cls n s = true ->
  Js.prefix_then_class p cls n (Js.toLowerCase s) = true.
Proof.
  intros Hp Hcls. unfold Js.prefix_then_class.
  destruct (Js.strip_prefix p s) as [r|] eqn:E; [|discriminate].
  apply strip_prefix_some in E. subst s. intros H.
  apply andb_true_iff in H. destruct H as [Hl Hc].
  rewrite toLowerCase_app, Hp, strip_prefix_app, toLowerCase_length, Hl.
  apply all_chars_lower; assumption.
Qed.

Lemma address_re_lower (s : string) :
  Js.address_re s = true -> Js.address_re (Js.toLowerCase s) = true.
Proof. apply prefix_then_class_lower; [reflexivity | apply is_hex_lower]. Qed.

Lemma txhash_re_lower (s : string) :
  Js.txhash_re s = true -> Js.txhash_re (Js.toLowerCase s) = true.
Proof. apply prefix_then_class_lower; [reflexivity | apply is_hex_lower]. Qed.

Lemma prefix_then_class_nonempty (p : string) (cls : ascii -> bool) (n : nat) (s : string) :
  p <> "" -> Js.prefix_then_class p cls n s = true -> s <> "".
Proof.
  intros Hp H ->. unfold Js.prefix_then_class in H.
  destruct p; [contradiction | discriminate].
Qed.

(** The gateway URL of a well-formed CID passes the validator of [imageUrl]. *)
Lemma gateway_url_accepted (c : string) :
  Js.cid_re c = true ->
  Js.pinata_url_re ("https://gateway.pinata.cloud/ipfs/" ++ c) = true.
Proof.
  unfold Js.cid_re, Js.prefix_then_class.
  destruct (Js.strip_prefix "Qm" c) as [r|] eqn:E; [|discriminate].
  apply strip_prefix_some in E. subst c. intros H.
  unfold Js.pinata_url_re. simpl Js.strip_prefix.
  do 7 (unfold Js.dots_then_pinata_cid; fold Js.dots_then_pinata_cid;
        simpl; rewrite ?orb_false_l).
  unfold Js.dots_then_pinata_cid; fold Js.dots_then_pinata_cid.
  apply orb_true_iff. left. unfold Js.prefix_then_class. simpl Js.strip_prefix.
  exact H.
Qed.

End Patterns.

(* ===================================================================== *)
(** * The paths through [saveNFT] *)
(* ===================================================================== *)

Section SavePaths.

Variable rt : Runtime.

Lemma find_none_existsb {A} (p : A -> bool) (l : list A) :
  find p l = None -> existsb p l = false.
Proof.
  intros H. destruct (existsb p l) eqn:E; [|reflexivity].
  apply existsb_exists in E. destruct E as (x & Hx & Hp).
  rewrite (find_none p l H x Hx) in Hp. discriminate.
Qed.

Lemma written_document_hash (req : SaveRequest) (h : string) :
  body_transactionHash req = Some (JStr h) ->
  transactionHash (written_document rt req) = Js.toLowerCase h.
Proof. intros H. apply (written_document_lowercase rt req). exact H. Qed.

Lemma written_document_wallet (req : SaveRequest) (w : string) :
  body_walletAddress req = Some (JStr w) ->
  walletAddress (written_document rt req) = Js.toLowerCase w.
Proof. intros H. apply (written_document_lowercase rt req). exact H. Qed.

(** Where a request goes once its required properties are truthy, its hash is
    a string and the duplicate check has found nothing. *)
Lemma saveNFT_fresh (req : SaveRequest) (wd : World) (h : string) :
  some_required_falsy req = false ->
  body_transactionHash req = Some (JStr h) ->
  find (fun x => String.eqb (transactionHash x) (Js.toLowerCase h)) (docs wd) = None ->
  let wd1 := mkWorld (docs wd) (queries wd ++ [QFindOne (Js.toLowerCase h)]) in
  let d := written_document rt req in
  match nftData_error req with
  | Some _ =>
      saveNFT rt req wd
      = (Returned {| http_status := 500; success := false;
                     message := Some "Failed to save NFT";
                     payload := ErrorText
                       (shown_error rt (TypeError "Cannot convert object to primitive value")) |},
         wd1)
  | None =>
      match Schema.validate (Schema.new_NFT (nftData rt req)) with
      | [] =>
          match body_walletAddress req with
          | Some (JStr w) =>
              saveNFT rt req wd
              = (Returned
                   {| http_status := 201; success := true;
                      message := Some "NFT saved successfully";
                      payload :=
                        SavedRecord d
                          (Z.of_nat (List.length
                             (filter (Collection.owned_confirmed (Js.toLowerCase w)) (docs wd ++ [d]))))
                          (Z.of_nat (List.length
                             (filter (Collection.owned_confirmed (Js.toLowerCase w)) (docs wd ++ [d])))
                           =? 1) |},
                 mkWorld (docs wd ++ [d])
                   ((queries wd1 ++ [QInsert d]) ++ [QCount (Js.toLowerCase w)]))
          | _ =>
              exists r, saveNFT rt req wd
                        = (Returned r, mkWorld (docs wd ++ [d]) (queries wd1 ++ [QInsert d])) /\
                        http_status r = 500 /\ success r = false
          end
      | errors =>
          saveNFT rt req wd
          = (Returned {| http_status := 400; success := false;
                         message := Some "Validation failed";
                         payload := FieldErrors errors |}, wd1)
      end
  end.
Proof.
  intros Hall Hh Hfind wd1 d.
  pose proof (written_document_hash req h Hh) as Hdh. fold d in Hdh.
  assert (existsb (fun x => String.eqb (transactionHash x) (transactionHash d)) (docs wd) = false)
    as Hex by (rewrite Hdh; apply find_none_existsb; exact Hfind).
  unfold saveNFT, try_catch, saveNFT_try. rewrite Hall, Hh.
  unfold bind at 1. unfold Model.call_toLowerCase, ret at 1. unfold bind at 1.
  unfold Collection.findOne, bind, issue, read_docs, ret. cbn [docs queries].
  rewrite Hfind.
  destruct (nftData_error req) as [thrown|] eqn:Hthrown.
  { apply nftData_error_type in Hthrown. subst thrown. reflexivity. }
  unfold Model.save.
  destruct (Schema.validate (Schema.new_NFT (nftData rt req))) as [|e es] eqn:Ev.
  - unfold Collection.insertOne, bind, issue, read_docs, write_docs, ret, throw.
    cbn [docs queries].
    fold (written_document rt req). fold d. rewrite Hex.
    unfold Model.getUserNFTCount, Model.call_toLowerCase, bind, ret, throw.
    destruct (body_walletAddress req) as [[| | |w| |]|];
      try (eexists; split; [reflexivity | split; reflexivity]).
    reflexivity.
  - reflexivity.
Qed.

End SavePaths.

(* ===================================================================== *)
(** * Accepted payloads *)
(* ===================================================================== *)

Section Accepted.

Variable rt : Runtime.

Lemma eqb_empty_false (s : string) : s <> "" -> String.eqb s "" = false.
Proof. intros H. apply String.eqb_neq. exact H. Qed.

Lemma lower_nonempty (s : string) : Js.toLowerCase s <> "" -> s <> "".
Proof. intros H ->. apply H. reflexivity. Qed.

Lemma address_re_nonempty (s : string) : Js.address_re s = true -> s <> "".
Proof. apply prefix_then_class_nonempty. discriminate. Qed.

Lemma validate_string_ok (path msg mmsg : string) (re : string -> bool) (s : string) :
  s <> "" -> re s = true ->
  Schema.validate_string path msg (Some (re, mmsg)) (Schema.CastOk s) = [].
Proof.
  intros Hs Hre. unfold Schema.validate_string.
  rewrite (eqb_empty_false s Hs), Hre. reflexivity.
Qed.

Lemma accepted_truthy (req : SaveRequest) :
  payload_accepted rt req -> some_required_falsy req = false.
Proof.
  intros ((w & Hw & Hwre) & (c & Hc & Hcre) & (u & Hu & Hure) & (t & Ht & Htne)
          & (a & Ha & Hare) & (h & Hh & Hhre) & _).
  unfold some_required_falsy. rewrite Hw, Hc, Hu, Ht, Ha, Hh. simpl.
  rewrite (eqb_empty_false w), (eqb_empty_false c), (eqb_empty_false u),
    (eqb_empty_false t), (eqb_empty_false a), (eqb_empty_false h); try reflexivity;
    try assumption.
  - apply lower_nonempty. apply (prefix_then_class_nonempty "0x" _ _ _ ltac:(discriminate) Hhre).
  - apply lower_nonempty, address_re_nonempty, Hare.
  - apply (prefix_then_class_nonempty "ipfs://Qm" _ _ _ ltac:(discriminate) Hure).
  - apply (prefix_then_class_nonempty "Qm" _ _ _ ltac:(discriminate) Hcre).
  - apply lower_nonempty, address_re_nonempty, Hwre.
Qed.

Lemma accepted_validates (req : SaveRequest) :
  payload_accepted rt req -> Schema.validate (Schema.new_NFT (nftData rt req)) = [].
Proof.
  intros ((w & Hw & Hwre) & (c & Hc & Hcre) & (u & Hu & Hure) & (t & Ht & Htne)
          & (a & Ha & Hare) & (h & Hh & Hhre) & (Hname & Hdate)).
  unfold Schema.validate, Schema.new_NFT, nftData. cbn [Schema.d_walletAddress Schema.d_ipfsCid
    Schema.d_metadataUri Schema.d_tokenId Schema.d_contractAddress Schema.d_transactionHash
    Schema.d_eventName Schema.d_mintedAt Schema.d_imageUrl Schema.in_walletAddress
    Schema.in_ipfsCid Schema.in_metadataUri Schema.in_tokenId Schema.in_contractAddress
    Schema.in_transactionHash Schema.in_eventName Schema.in_mintedAt Schema.in_imageUrl].
  rewrite Hw, Hc, Hu, Ht, Ha, Hh. cbn [Schema.castString Schema.lowercase template js_toString].
  rewrite (validate_string_ok _ _ _ _ _ (address_re_nonempty _ Hwre) Hwre).
  rewrite (validate_string_ok _ _ _ _ c
             (prefix_then_class_nonempty "Qm" _ _ _ ltac:(discriminate) Hcre) Hcre).
  rewrite (validate_string_ok _ _ _ _ u
             (prefix_then_class_nonempty "ipfs://Qm" _ _ _ ltac:(discriminate) Hure) Hure).
  rewrite (validate_string_ok _ _ _ _ _ (address_re_nonempty _ Hare) Hare).
  rewrite (validate_string_ok _ _ _ _ _
             (prefix_then_class_nonempty "0x" _ _ _ ltac:(discriminate) Hhre) Hhre).
  unfold Schema.validate_string at 1. rewrite (eqb_empty_false t Htne).
  cbn [app].
  assert (Schema.validate_eventName
            match Schema.castString
                    (if truthy (opt_chain (body_eventData req) "eventName")
                     then opt_chain (body_eventData req) "eventName"
                     else Some (JStr "Onchain Summer Lagos")) with
            | Schema.CastAbsent => Schema.CastOk "Onchain Summer Lagos"
            | c0 => c0
            end = []) as ->.
  { destruct Hname as [Hf|Hn].
    - rewrite Hf. reflexivity.
    - rewrite Hn. reflexivity. }
  assert (Schema.validate_mintedAt
            match match opt_chain (body_eventData req) "mintedAt" with
                  | Some v => if truthy (Some v) then Schema.newDate rt v else Some (Date_now rt)
                  | None => Some (Date_now rt)
                  end with
            | Some t0 => Schema.CastOk t0
            | None => Schema.CastFailed
            end = []) as ->.
  { destruct (opt_chain (body_eventData req) "mintedAt") as [v|] eqn:Ev; [|reflexivity].
    destruct (truthy (Some v)) eqn:Et; [|reflexivity].
    destruct (Schema.newDate rt v) eqn:En; [reflexivity|].
    exfalso. apply (Hdate v eq_refl Et). exact En. }
  unfold Schema.validate_imageUrl. rewrite (gateway_url_accepted c Hcre), orb_true_r.
  reflexivity.
Qed.

Lemma newDate_no_throw (v : json) :
  Schema.newDate rt v <> None -> to_primitive_throws v = false.
Proof.
  destruct v as [| | | |l|props]; try reflexivity; unfold Schema.newDate;
    destruct (to_primitive_throws _); try reflexivity; intros H; contradiction H; reflexivity.
Qed.

Lemma accepted_no_throw (req : SaveRequest) :
  payload_accepted rt req -> nftData_error req = None.
Proof.
  intros (_ & (c & Hc & _) & _ & _ & _ & _ & (_ & Hdate)).
  unfold nftData_error. rewrite Hc. cbn [to_primitive_throws].
  destruct (opt_chain (body_eventData req) "mintedAt") as [v|] eqn:Ev; [|reflexivity].
  destruct (truthy (Some v)) eqn:Et; [|reflexivity].
  rewrite (newDate_no_throw v (Hdate v eq_refl Et)). reflexivity.
Qed.

End Accepted.

(* ===================================================================== *)
(** * Every outcome of [saveNFT] *)
(* ===================================================================== *)

Section SaveCases.

Variable rt : Runtime.

(** The five ways a save request ends: a required property is falsy; the
    hash is not a string; the hash is stored; the schema refuses the
    document; the document is inserted (and then counted, or the count
    throws). *)
Lemma saveNFT_cases (req : SaveRequest) (wd : World) :
  saveNFT rt req wd = (Returned missing_fields_response, wd) \/
  (exists msg wd',
     saveNFT rt req wd
     = (Returned {| http_status := 500; success := false;
                    message := Some "Failed to save NFT";
                    payload := ErrorText msg |}, wd') /\
     docs wd' = docs wd) \/
  (exists h existing,
     body_transactionHash req = Some (JStr h) /\
     In existing (docs wd) /\
     saveNFT rt req wd
     = (Returned {| http_status := 409; success := false;
                    message := Some "NFT already recorded";
                    payload := ExistingRecord existing |},
        mkWorld (docs wd) (queries wd ++ [QFindOne (Js.toLowerCase h)]))) \/
  (exists h e es,
     body_transactionHash req = Some (JStr h) /\
     Schema.validate (Schema.new_NFT (nftData rt req)) = e :: es /\
     saveNFT rt req wd
     = (Returned {| http_status := 400; success := false;
                    message := Some "Validation failed";
                    payload := FieldErrors (e :: es) |},
        mkWorld (docs wd) (queries wd ++ [QFindOne (Js.toLowerCase h)]))) \/
  (exists h,
     body_transactionHash req = Some (JStr h) /\
     find (fun x => String.eqb (transactionHash x) (Js.toLowerCase h)) (docs wd) = None /\
     Schema.validate (Schema.new_NFT (nftData rt req)) = [] /\
     nftData_error req = None /\
     exists r wd',
       saveNFT rt req wd = (Returned r, wd') /\
       docs wd' = (docs wd ++ [written_document rt req])%list /\
       ((exists n, r = {| http_status := 201; success := true;
                          message := Some "NFT saved successfully";
                          payload := SavedRecord (written_document rt req) n (n =? 1) |}) \/
        (http_status r = 500 /\ success r = false))).
Proof.
  destruct (some_required_falsy req) eqn:Hall.
  { left. apply saveNFT_missing. exact Hall. }
  right. pose proof (all_truthy_hash req Hall) as Ht.
  destruct (body_transactionHash req) as [j|] eqn:Hj; [|discriminate Ht].
  assert ((exists h, j = JStr h) \/ ~ is_string j) as [[h ->]|Hns].
  { destruct j; try (right; intros [s Hs]; discriminate Hs). left. eexists. reflexivity. }
  2:{ left. do 2 eexists. unfold saveNFT, try_catch.
      rewrite (saveNFT_try_type_error rt req wd j Hall Hj Hns). split; reflexivity. }
  destruct (find (fun x => String.eqb (transactionHash x) (Js.toLowerCase h)) (docs wd))
    as [e|] eqn:Hfind.
  { right. left. exists h, e. split; [reflexivity|].
    pose proof (find_some _ _ Hfind) as [Hin Heq]. split; [exact Hin|].
    unfold saveNFT, try_catch, saveNFT_try. rewrite Hall, Hj.
    unfold bind, Model.call_toLowerCase, ret, Collection.findOne, bind, issue, read_docs, ret.
    cbn [docs queries]. rewrite Hfind. reflexivity. }
  pose proof (saveNFT_fresh rt req wd h Hall Hj Hfind) as Hrun. cbv zeta in Hrun.
  destruct (nftData_error req) as [thrown|] eqn:Hthrown.
  { left. do 2 eexists. split; [exact Hrun | reflexivity]. }
  right. right.
  destruct (Schema.validate (Schema.new_NFT (nftData rt req))) as [|e es] eqn:Ev.
  - right. exists h. split; [reflexivity|]. split; [exact Hfind|]. split; [reflexivity|].
    split; [reflexivity|].
    destruct (body_walletAddress req) as [[| | |w| |]|];
      try (destruct Hrun as (r & Hr & Hs & Hf); exists r; eexists;
           split; [exact Hr|]; split; [reflexivity|]; right; split; assumption).
    do 2 eexists. split; [exact Hrun|]. split; [reflexivity|]. left. eexists. reflexivity.
  - left. exists h, e, es. split; [reflexivity|]. split; [reflexivity|]. exact Hrun.
Qed.

(** The run of an accepted payload whose hash is not stored. *)
Lemma saveNFT_accepted_run (req : SaveRequest) (wd : World) :
  payload_accepted rt req ->
  (forall x, In x (docs wd) -> transactionHash x <> transactionHash (written_document rt req)) ->
  exists w h,
    body_walletAddress req = Some (JStr w) /\
    body_transactionHash req = Some (JStr h) /\
    find (fun x => String.eqb (transactionHash x) (Js.toLowerCase h)) (docs wd) = None /\
    saveNFT rt req wd
    = (Returned
         {| http_status := 201; success := true;
            message := Some "NFT saved successfully";
            payload :=
              SavedRecord (written_document rt req)
                (Z.of_nat (List.length
                   (filter (Collection.owned_confirmed (Js.toLowerCase w))
                      (docs wd ++ [written_document rt req]))))
                (Z.of_nat (List.length
                   (filter (Collection.owned_confirmed (Js.toLowerCase w))
                      (docs wd ++ [written_document rt req])))
                 =? 1) |},
       mkWorld (docs wd ++ [written_document rt req])
         (((queries wd ++ [QFindOne (Js.toLowerCase h)])
           ++ [QInsert (written_document rt req)]) ++ [QCount (Js.toLowerCase w)])).
Proof.
  intros Hacc Hfresh.
  pose proof (accepted_truthy rt req Hacc) as Hall.
  pose proof (accepted_validates rt req Hacc) as Hval.
  pose proof (accepted_no_throw rt req Hacc) as Hthrow.
  destruct Hacc as ((w & Hw & _) & _ & _ & _ & _ & (h & Hh & _) & _).
  exists w, h. split; [exact Hw|]. split; [exact Hh|].
  assert (find (fun x => String.eqb (transactionHash x) (Js.toLowerCase h)) (docs wd) = None)
    as Hfind.
  { destruct (find _ (docs wd)) as [e|] eqn:E; [|reflexivity].
    apply find_some in E. destruct E as [Hin Heq]. apply String.eqb_eq in Heq.
    exfalso. apply (Hfresh e Hin). rewrite (written_document_hash rt req h Hh). exact Heq. }
  split; [exact Hfind|].
  pose proof (saveNFT_fresh rt req wd h Hall Hh Hfind) as Hrun. cbv zeta in Hrun.
  rewrite Hthrow, Hval, Hw in Hrun. exact Hrun.
Qed.

End SaveCases.

(* ===================================================================== *)
(** * What the schema lets through *)
(* ===================================================================== *)

Section Validated.

Variable rt : Runtime.

Lemma validate_string_nil (path msg : string) (re : option ((string -> bool) * string))
    (c : Schema.Cast string) :
  Schema.validate_string path msg re c = [] ->
  exists s, c = Schema.CastOk s /\ s <> "" /\
            match re with Some (test, _) => test s = true | None => True end.
Proof.
  unfold Schema.validate_string. destruct c as [s| |]; try discriminate.
  destruct (String.eqb_spec s "") as [|Hne]; [discriminate|].
  intros H. exists s. split; [reflexivity|]. split; [exact Hne|].
  destruct re as [[test m]|]; [|exact I].
  destruct (test s); [reflexivity | discriminate].
Qed.

Lemma lower_if_set_address (s : string) :
  Js.address_re s = true -> Js.address_re (Schema.lower_if_set s) = true.
Proof.
  intros H. unfold Schema.lower_if_set.
  destruct (negb (String.eqb s "")); [apply address_re_lower; exact H | exact H].
Qed.

Lemma lower_if_set_txhash (s : string) :
  Js.txhash_re s = true -> Js.txhash_re (Schema.lower_if_set s) = true.
Proof.
  intros H. unfold Schema.lower_if_set.
  destruct (negb (String.eqb s "")); [apply txhash_re_lower; exact H | exact H].
Qed.

(** A cast that succeeded on a truthy value gives what a template literal
    inserts, except for an object, which casts to its [_id]. *)
Lemma cast_is_template (v : option json) (s : string) :
  Schema.castString v = Schema.CastOk s ->
  template v = s \/ template v = "[object Object]".
Proof.
  destruct v as [[|[]|n|t|l|props]|]; simpl; try discriminate;
    try (intros [= <-]; left; reflexivity).
  intros _. right. reflexivity.
Qed.

(** The document [saveNFT] writes, when the schema has no objection. *)
Lemma validated_document (req : SaveRequest) :
  Schema.validate (Schema.new_NFT (nftData rt req)) = [] ->
  let d := written_document rt req in
  Js.address_re (walletAddress d) = true /\
  Js.cid_re (ipfsCid d) = true /\
  Js.ipfs_uri_re (metadataUri d) = true /\
  tokenId d <> "" /\
  Js.address_re (contractAddress d) = true /\
  Js.txhash_re (transactionHash d) = true /\
  eventName d = "Onchain Summer Lagos" /\
  imageUrl d = Some ("https://gateway.pinata.cloud/ipfs/" ++ ipfsCid d).
Proof.
  intros Hv. unfold Schema.validate in Hv.
  repeat (apply app_eq_nil in Hv; destruct Hv as [? Hv]).
  repeat match goal with
         | H : Schema.validate_string _ _ _ _ = [] |- _ =>
             apply validate_string_nil in H; destruct H as (? & ? & ? & ?)
         end.
  unfold written_document, Schema.pre_save, Schema.to_NFT.
  cbn [walletAddress ipfsCid metadataUri tokenId contractAddress transactionHash
       eventName imageUrl].
  repeat match goal with
         | H : _ = Schema.CastOk _ |- _ => rewrite H
         end.
  cbn [Schema.cast_value].
  split; [apply lower_if_set_address; assumption|].
  split; [assumption|].
  split; [assumption|].
  split; [assumption|].
  split; [apply lower_if_set_address; assumption|].
  split; [apply lower_if_set_txhash; assumption|].
  split.
  - match goal with
    | H : Schema.validate_eventName _ = [] |- _ => revert H
    end.
    unfold Schema.new_NFT. cbn [Schema.d_eventName].
    destruct (Schema.castString (Schema.in_eventName (nftData rt req))) as [s| |];
      simpl; try discriminate; [|reflexivity].
    destruct (String.eqb_spec s "Onchain Summer Lagos") as [->|]; [reflexivity | discriminate].
  - match goal with
    | H : Schema.validate_imageUrl _ = [] |- _ => revert H
    end.
    match goal with
    | H : Schema.d_ipfsCid _ = Schema.CastOk ?c |- _ => revert H
    end.
    unfold Schema.new_NFT, nftData.
    cbn [Schema.d_imageUrl Schema.d_ipfsCid Schema.in_imageUrl Schema.in_ipfsCid].
    intros Hc. destruct (cast_is_template _ _ Hc) as [->| ->].
    + intros _. reflexivity.
    + vm_compute. discriminate.
Qed.

End Validated.

(* ===================================================================== *)
(** * Further properties of [saveNFT] *)
(* ===================================================================== *)

Lemma sample_request_accepted (now : Z) (w h : string) :
  Js.address_re (Js.toLowerCase w) = true ->
  Js.txhash_re (Js.toLowerCase h) = true ->
  payload_accepted (Sample.rt now) (Sample.request w (Some (JStr h))).
Proof.
  intros Hw Hh. unfold payload_accepted, Sample.request. cbn.
  split; [exists w; split; [reflexivity | exact Hw]|].
  split; [eexists; split; [reflexivity | vm_compute; reflexivity]|].
  split; [eexists; split; [reflexivity | vm_compute; reflexivity]|].
  split; [eexists; split; [reflexivity | discriminate]|].
  split; [eexists; split; [reflexivity | vm_compute; reflexivity]|].
  split; [exists h; split; [reflexivity | exact Hh]|].
  split; [left; reflexivity | intros v Hv; discriminate Hv].
Qed.

Lemma count_after_insert (w : string) (l : list NFT) (d : NFT) :
  walletAddress d = w -> status d = confirmed ->
  Z.of_nat (List.length (filter (Collection.owned_confirmed w) (l ++ [d])))
  = 1 + Z.of_nat (List.length (filter (Collection.owned_confirmed w) l)).
Proof.
  intros Hw Hs. rewrite filter_app, length_app. cbn [filter].
  assert (Collection.owned_confirmed w d = true) as ->
    by (apply owned_confirmed_spec; split; assumption).
  cbn [List.length]. lia.
Qed.

(** X1: An accepted payload with a hash that is not stored: the answer is 201
    with the written record, the collection grows by that record, and the
    reported total is one more than the owner had; [isFirstNFT] is set
    exactly when the owner had none. The record is confirmed, on chain
    8453, dated by the clock. *)
Theorem saveNFT_accepted_is_created (rt : Runtime) (req : SaveRequest) (wd : World) :
  payload_accepted rt req ->
  (forall x, In x (docs wd) -> transactionHash x <> transactionHash (written_document rt req)) ->
  exists n wd',
    saveNFT rt req wd
    = (Returned {| http_status := 201; success := true;
                   message := Some "NFT saved successfully";
                   payload := SavedRecord (written_document rt req) n (n =? 1) |}, wd') /\
    docs wd' = (docs wd ++ [written_document rt req])%list /\
    n = 1 + Z.of_nat (List.length
              (filter (Collection.owned_confirmed (walletAddress (written_document rt req)))
                 (docs wd))) /\
    status (written_document rt req) = confirmed /\
    networkChainId (written_document rt req) = 8453 /\
    createdAt (written_document rt req) = Date_now rt.
Proof.
  intros Hacc Hfresh.
  destruct (saveNFT_accepted_run rt req wd Hacc Hfresh) as (w & h & Hw & Hh & _ & Hrun).
  do 2 eexists. split; [exact Hrun|]. split; [reflexivity|].
  split; [|repeat split].
  rewrite (written_document_wallet rt req w Hw).
  apply count_after_insert; [apply written_document_wallet; exact Hw | reflexivity].
Qed.

Lemma saveNFT_accepted_is_created_witness :
  exists d wd',
    saveNFT (Sample.rt 1700000000999)
      (Sample.request Sample.wallet (Some (JStr (Sample.hash_of "F")))) Sample.fifteen
    = (Returned {| http_status := 201; success := true;
                   message := Some "NFT saved successfully";
                   payload := SavedRecord d 16 false |}, wd') /\
    List.length (docs wd') = 16%nat.
Proof.
  destruct (saveNFT_accepted_is_created (Sample.rt 1700000000999)
              (Sample.request Sample.wallet (Some (JStr (Sample.hash_of "F")))) Sample.fifteen)
    as (n & wd' & Hrun & Hdocs & Hn & _).
  - apply sample_request_accepted; vm_compute; reflexivity.
  - intros x Hx. vm_compute in Hx.
    repeat (destruct Hx as [<-|Hx]; [vm_compute; discriminate|]). destruct Hx.
  - vm_compute in Hn. subst n. do 2 eexists. split; [exact Hrun|].
    rewrite Hdocs, length_app. vm_compute. reflexivity.
Defined.

(** X2: Whatever [saveNFT] adds to the collection satisfies the schema: the three
    hexadecimal fields and the two IPFS fields match their patterns, the
    token id is not empty, the event is the one of the enumeration, the
    record is confirmed on chain 8453, its stored [imageUrl] is what the
    [pinataImageUrl] virtual computes, and its explorer URL is the mainnet
    one. *)
Theorem saveNFT_writes_valid_documents (rt : Runtime) (req : SaveRequest) (wd : World) :
  docs (snd (saveNFT rt req wd)) = docs wd \/
  exists d,
    docs (snd (saveNFT rt req wd)) = (docs wd ++ [d])%list /\
    Js.address_re (walletAddress d) = true /\
    Js.cid_re (ipfsCid d) = true /\
    Js.ipfs_uri_re (metadataUri d) = true /\
    tokenId d <> "" /\
    Js.address_re (contractAddress d) = true /\
    Js.txhash_re (transactionHash d) = true /\
    eventName d = "Onchain Summer Lagos" /\
    status d = confirmed /\
    networkChainId d = 8453 /\
    imageUrl d = pinataImageUrl d /\
    blockExplorerUrl d = "https://basescan.org/tx/" ++ transactionHash d.
Proof.
  destruct (saveNFT_cases rt req wd)
    as [H|[(m & wd5 & H & Hd5)|[(h & e & _ & _ & H)|[(h & e & es & _ & _ & H)|(h & _ & _ & Hv & _ & r & wd' & H & Hd & _)]]]];
    rewrite H; try (left; reflexivity); try (left; exact Hd5).
  right. exists (written_document rt req). split; [exact Hd|].
  destruct (validated_document rt req Hv) as (Hw & Hc & Hu & Ht & Ha & Hh & He & Hi).
  repeat (split; [assumption|]).
  split; [reflexivity|]. split; [reflexivity|].
  split; [|reflexivity].
  rewrite Hi. unfold pinataImageUrl.
  destruct (String.eqb_spec (ipfsCid (written_document rt req)) "") as [E|_]; [|reflexivity].
  rewrite E in Hc. discriminate Hc.
Qed.

(** X3: [saveNFT] keeps the transaction hashes of the collection pairwise
    distinct. *)
Theorem saveNFT_keeps_hashes_unique (rt : Runtime) (req : SaveRequest) (wd : World) :
  NoDup (map transactionHash (docs wd)) ->
  NoDup (map transactionHash (docs (snd (saveNFT rt req wd)))).
Proof.
  intros Hnd.
  destruct (saveNFT_cases rt req wd)
    as [H|[(m & wd5 & H & Hd5)|[(h & e & _ & _ & H)|[(h & e & es & _ & _ & H)|(h & Hh & Hf & _ & _ & r & wd' & H & Hd & _)]]]];
    rewrite H; try exact Hnd; try (cbn [snd]; rewrite Hd5; exact Hnd).
  cbn [snd]. rewrite Hd, map_app. cbn [map].
  apply NoDup_app; [exact Hnd | repeat constructor; intros [] |].
  intros y Hy [Hy'|[]]. subst y.
  apply in_map_iff in Hy. destruct Hy as (x & Hx & Hin).
  rewrite (written_document_hash rt req h Hh) in Hx.
  pose proof (find_none _ _ Hf x Hin) as Hne. cbv beta in Hne.
  rewrite Hx, String.eqb_refl in Hne. discriminate.
Qed.

Lemma saveNFT_keeps_hashes_unique_witness :
  NoDup (map transactionHash
           (docs (snd (saveNFT (Sample.rt 1700000000999)
                         (Sample.request Sample.wallet (Some (JStr (Sample.hash_of "F"))))
                         Sample.fifteen)))).
Proof.
  apply (saveNFT_keeps_hashes_unique (Sample.rt 1700000000999)
           (Sample.request Sample.wallet (Some (JStr (Sample.hash_of "F")))) Sample.fifteen).
  assert (nodup string_dec (map transactionHash (docs Sample.fifteen))
          = map transactionHash (docs Sample.fifteen)) as E by (vm_compute; reflexivity).
  rewrite <- E. apply NoDup_nodup.
Defined.




(** X5: Every save request is answered, with status 201, 400, 409 or 500;
    [success] is set exactly under 201; a 400 or a 409 leaves the collection
    as it was; a 201 adds exactly the written record; and no outcome removes
    or alters a stored record. *)
Theorem saveNFT_outcome (rt : Runtime) (req : SaveRequest) (wd : World) :
  exists r wd',
    saveNFT rt req wd = (Returned r, wd') /\
    In (http_status r) [201; 400; 409; 500] /\
    (success r = true <-> http_status r = 201) /\
    (http_status r = 400 \/ http_status r = 409 -> docs wd' = docs wd) /\
    (http_status r = 201 -> docs wd' = (docs wd ++ [written_document rt req])%list) /\
    (exists added, docs wd' = (docs wd ++ added)%list).
Proof.
  destruct (saveNFT_cases rt req wd)
    as [H|[(m & wd5 & H & Hd5)|[(h & e & _ & _ & H)|[(h & e & es & _ & _ & H)|(h & _ & _ & _ & _ & r & wd' & H & Hd & Hr)]]]].
  1-4: do 2 eexists; (split; [exact H|]); cbn;
       (split; [tauto|]); (split; [split; intros E; discriminate E|]);
       (split; [first [reflexivity | intros _; exact Hd5]|]);
       (split; [intros E; discriminate E|]);
       exists []; rewrite app_nil_r; first [reflexivity | exact Hd5].
  exists r, wd'. split; [exact H|].
  destruct Hr as [(n & ->)|(Hs & Hf)]; cbn.
  - split; [tauto|]. split; [tauto|]. split; [intros [E|E]; discriminate E|].
    split; [intros _; exact Hd|]. eexists. exact Hd.
  - rewrite Hs, Hf. split; [tauto|]. split; [split; intros E; discriminate E|].
    split; [intros [E|E]; discriminate E|]. split; [intros E; discriminate E|].
    eexists. exact Hd.
Qed.




(* ===================================================================== *)
(** * Further properties of [getUserNFTs] *)
(* ===================================================================== *)

Section ListPaths.

Import Collection.

Variable rt : Runtime.

(** The three ways a list request ends: a malformed address, a negative
    offset that the server refuses, or a page. *)
Lemma getUserNFTs_cases (req : ListRequest) (wd : World) :
  let w := Js.toLowerCase (param_walletAddress req) in
  let page := Js.parseInt_or (query_page req) 1 in
  let limit := Js.parseInt_or (query_limit req) 10 in
  let total := Z.of_nat (List.length (filter (owned_confirmed w) (docs wd))) in
  let nfts := map (enrich rt) (page_records w page limit (docs wd)) in
  (invalid_wallet (param_walletAddress req) = true /\
   getUserNFTs rt req wd
   = (Returned {| http_status := 400; success := false;
                  message := Some "Invalid wallet address format";
                  payload := NoPayload |}, wd)) \/
  (invalid_wallet (param_walletAddress req) = false /\ (page - 1) * limit < 0 /\
   exists msg,
     getUserNFTs rt req wd
     = (Returned {| http_status := 500; success := false;
                    message := Some "Failed to fetch NFTs";
                    payload := ErrorText msg |},
        mkWorld (docs wd) (queries wd ++ [QFind w ((page - 1) * limit) limit]))) \/
  (invalid_wallet (param_walletAddress req) = false /\ 0 <= (page - 1) * limit /\
   getUserNFTs rt req wd
   = (Returned
        {| http_status := 200; success := true; message := None;
           payload :=
             NFTPage nfts
               {| currentPage := page;
                  totalPages := Js.ceil_div total limit;
                  totalCount := total;
                  hasNextPage := page <? Js.ceil_div total limit;
                  hasPrevPage := 1 <? page;
                  Controller.limit := limit |}
               {| meta_walletAddress := w;
                  firstNFTDate := option_map (fun e => mintedAt (nft e)) (last (map Some nfts) None);
                  latestNFTDate := option_map (fun e => mintedAt (nft e)) (hd_error nfts) |} |},
      mkWorld (docs wd) ((queries wd ++ [QFind w ((page - 1) * limit) limit]) ++ [QCount w]))).
Proof.
  cbv zeta.
  destruct (invalid_wallet (param_walletAddress req)) eqn:Hv.
  { left. split; [reflexivity|]. apply getUserNFTs_invalid. exact Hv. }
  right.
  unfold getUserNFTs, try_catch, getUserNFTs_try. rewrite Hv.
  unfold bind at 1. unfold find_page, bind, issue, read_docs, ret, throw. cbn [docs queries].
  destruct (Z.ltb_spec ((Js.parseInt_or (query_page req) 1 - 1) * Js.parseInt_or (query_limit req) 10) 0)
    as [Hneg|Hpos].
  - left. split; [reflexivity|]. split; [exact Hneg|]. eexists. reflexivity.
  - right. split; [reflexivity|]. split; [exact Hpos|]. reflexivity.
Qed.

End ListPaths.

Section SortedPages.

Import Collection.

Lemma StronglySorted_skipn {A} (R : A -> A -> Prop) (n : nat) (l : list A) :
  StronglySorted R l -> StronglySorted R (skipn n l).
Proof.
  revert l. induction n as [|n IH]; intros l H; [exact H|].
  destruct l as [|x r]; [constructor|]. simpl. apply IH. inversion H; assumption.
Qed.

Lemma StronglySorted_firstn {A} (R : A -> A -> Prop) (n : nat) (l : list A) :
  StronglySorted R l -> StronglySorted R (firstn n l).
Proof.
  revert l. induction n as [|n IH]; intros l H; [constructor|].
  destruct l as [|x r]; [constructor|]. simpl. inversion H as [|? ? Hr Hx]; subst.
  constructor; [apply IH; exact Hr|].
  rewrite Forall_forall in *. intros y Hy. apply Hx.
  rewrite <- (firstn_skipn n r). apply in_or_app. left. exact Hy.
Qed.

Lemma sort_desc_strongly (l : list NFT) : StronglySorted newer_first (sort_desc l).
Proof.
  apply Sorted_StronglySorted; [|apply sort_desc_sorted].
  intros a b c Hab Hbc. unfold newer_first in *. lia.
Qed.

Lemma page_strongly_sorted (w : string) (skip limit : Z) (l : list NFT) :
  StronglySorted newer_first
    (apply_limit limit (skipn (Z.to_nat skip) (sort_desc (filter (owned_confirmed w) l)))).
Proof.
  unfold apply_limit. destruct (limit =? 0).
  - apply StronglySorted_skipn, sort_desc_strongly.
  - apply StronglySorted_firstn, StronglySorted_skipn, sort_desc_strongly.
Qed.

Lemma last_nonempty_default {A} (z : A) (r : list A) (d d' : A) :
  last (z :: r) d = last (z :: r) d'.
Proof.
  revert z. induction r as [|y r IH]; intros z; [reflexivity|].
  change (last (y :: r) d = last (y :: r) d'). apply IH.
Qed.

(** In a list sorted newest first, the head is the newest and the last
    element the oldest. *)
Lemma sorted_extremes (x : NFT) (r : list NFT) :
  StronglySorted newer_first (x :: r) ->
  forall y, In y (x :: r) ->
    createdAt (last (x :: r) x) <= createdAt y <= createdAt x.
Proof.
  revert x. induction r as [|z r IH]; intros x H y Hy.
  - destruct Hy as [<-|[]]. simpl. lia.
  - inversion H as [|? ? Hr Hx]; subst. rewrite Forall_forall in Hx.
    assert (last (x :: z :: r) x = last (z :: r) z) as ->
      by (change (last (x :: z :: r) x) with (last (z :: r) x); apply last_nonempty_default).
    destruct Hy as [<-|Hy].
    + pose proof (IH z Hr z (or_introl eq_refl)) as Hz.
      pose proof (Hx z (or_introl eq_refl)) as Hxz. unfold newer_first in Hxz. lia.
    + pose proof (IH z Hr y Hy) as Hyb.
      pose proof (Hx y Hy) as Hxy. unfold newer_first in Hxy. lia.
Qed.

Lemma last_map_Some {A B} (f : A -> B) (x : A) (r : list A) :
  last (map Some (map f (x :: r))) None = Some (f (last (x :: r) x)).
Proof.
  revert x. induction r as [|z r IH]; intros x; [reflexivity|].
  change (last (map Some (map f (x :: z :: r))) None)
    with (last (map Some (map f (z :: r))) None).
  rewrite IH. f_equal. f_equal.
  change (last (x :: z :: r) x) with (last (z :: r) x).
  apply last_nonempty_default.
Qed.

End SortedPages.

(** X7: A page past the last one is not an error: for a well-formed address and
    positive [page] and [limit] with [(page-1)*limit] at or beyond the number
    of records, the answer is 200 with no record, the true [totalCount],
    [hasNextPage] false and both summary dates null. An owner without
    records is the case [totalCount = 0]. *)
Theorem getUserNFTs_past_the_end
    (rt : Runtime) (req : ListRequest) (wd : World) (page limit : Z) :
  matches_address_pattern (param_walletAddress req) ->
  Js.parseInt_or (query_page req) 1 = page ->
  Js.parseInt_or (query_limit req) 10 = limit ->
  0 < page ->
  0 < limit ->
  Z.of_nat (List.length
     (filter (Collection.owned_confirmed (Js.toLowerCase (param_walletAddress req))) (docs wd)))
  <= (page - 1) * limit ->
  exists pg meta wd',
    getUserNFTs rt req wd
    = (Returned {| http_status := 200; success := true; message := None;
                   payload := NFTPage [] pg meta |}, wd') /\
    totalCount pg
    = Z.of_nat (List.length
        (filter (Collection.owned_confirmed (Js.toLowerCase (param_walletAddress req))) (docs wd))) /\
    totalPages pg < page /\
    hasNextPage pg = false /\
    firstNFTDate meta = None /\
    latestNFTDate meta = None.
Proof.
  intros Haddr Hp Hl Hpage Hlimit Hpast.
  pose proof (invalid_wallet_false _ Haddr) as Hv.
  destruct (getUserNFTs_cases rt req wd) as [(Hi & _)|[(_ & Hneg & _)|(_ & _ & Hrun)]];
    cbv zeta in *.
  - congruence.
  - rewrite Hp, Hl in Hneg. nia.
  - rewrite Hp, Hl in Hrun.
    set (w := Js.toLowerCase (param_walletAddress req)) in *.
    set (matching := filter (Collection.owned_confirmed w) (docs wd)) in *.
    assert (page_records w page limit (docs wd) = []) as Hempty.
    { unfold page_records. fold matching.
      rewrite skipn_all2 by (rewrite sort_desc_length; lia).
      unfold Collection.apply_limit. destruct (limit =? 0); [reflexivity|].
      rewrite firstn_nil. reflexivity. }
    rewrite Hempty in Hrun. cbn [map] in Hrun.
    do 3 eexists. split; [exact Hrun|]. cbn.
    pose proof (ceil_div_bounds (Z.of_nat (List.length matching)) limit Hlimit) as Hb.
    assert (Js.ceil_div (Z.of_nat (List.length matching)) limit < page) as Hlt by nia.
    split; [reflexivity|]. split; [exact Hlt|].
    split; [apply Z.ltb_ge; lia|]. split; reflexivity.
Qed.

Lemma getUserNFTs_past_the_end_witness :
  exists pg meta wd',
    getUserNFTs (Sample.rt 1700000000200)
      (mkListRequest Sample.wallet (Some "3") (Some "10")) Sample.fifteen
    = (Returned {| http_status := 200; success := true; message := None;
                   payload := NFTPage [] pg meta |}, wd') /\
    totalCount pg = 15 /\ hasNextPage pg = false.
Proof.
  destruct (getUserNFTs_past_the_end (Sample.rt 1700000000200)
              (mkListRequest Sample.wallet (Some "3") (Some "10")) Sample.fifteen 3 10)
    as (pg & meta & wd' & Hrun & Hc & _ & Hn & _).
  - apply address_re_iff. vm_compute. reflexivity.
  - vm_compute. reflexivity.
  - vm_compute. reflexivity.
  - lia.
  - lia.
  - vm_compute. discriminate.
  - exists pg, meta, wd'. split; [exact Hrun|]. split; [|exact Hn].
    rewrite Hc. vm_compute. reflexivity.
Defined.

(** X8: No list response carries the [userAgent] or the [ipAddress] of a record. *)
Theorem getUserNFTs_hides_analytics (rt : Runtime) (req : ListRequest) (wd : World) :
  exists r wd',
    getUserNFTs rt req wd = (Returned r, wd') /\
    forall nfts pg meta,
      payload r = NFTPage nfts pg meta ->
      Forall (fun e => userAgent (nft e) = None /\ ipAddress (nft e) = None) nfts.
Proof.
  destruct (getUserNFTs_cases rt req wd) as [(_ & H)|[(_ & _ & m & H)|(_ & _ & H)]];
    cbv zeta in H; do 2 eexists; (split; [exact H|]); cbn [payload];
    intros nfts pg meta E; try discriminate E.
  injection E as <- _ _. apply Forall_forall. intros e He.
  apply in_map_iff in He. destruct He as (d & <- & Hd).
  unfold page_records in Hd. apply in_map_iff in Hd. destruct Hd as (d0 & <- & _).
  split; reflexivity.
Qed.

(** X9: The two handlers that read never write: the collection is the same
    after any list or statistics request, and the operations they send are
    reads only. *)
Theorem read_handlers_do_not_write (rt : Runtime) (req : ListRequest) (wd : World) :
  docs (snd (getUserNFTs rt req wd)) = docs wd /\
  docs (snd (getEventStats rt wd)) = docs wd /\
  (exists sent,
     queries (snd (getUserNFTs rt req wd)) = (queries wd ++ sent)%list /\
     Forall (fun q => match q with QFind _ _ _ | QCount _ => True | _ => False end) sent) /\
  queries (snd (getEventStats rt wd)) = (queries wd ++ [QAggregate])%list.
Proof.
  split; [|split; [reflexivity|split; [|reflexivity]]].
  - destruct (getUserNFTs_cases rt req wd) as [(_ & H)|[(_ & _ & m & H)|(_ & _ & H)]];
      cbv zeta in H; rewrite H; reflexivity.
  - destruct (getUserNFTs_cases rt req wd) as [(_ & H)|[(_ & _ & m & H)|(_ & _ & H)]];
      cbv zeta in H; rewrite H; cbn [snd queries].
    + exists []. rewrite app_nil_r. split; [reflexivity | constructor].
    + eexists. split; [reflexivity|]. repeat constructor.
    + eexists. rewrite <- app_assoc. split; [reflexivity|]. repeat constructor.
Qed.

(** X10: The summary dates of a list response are read off the ends of the page:
    [latestNFTDate] is the mint date of a record that no record of the page
    was created after, [firstNFTDate] the mint date of one that none was
    created before; both are null on an empty page. *)
Theorem getUserNFTs_summary_dates (rt : Runtime) (req : ListRequest) (wd : World) :
  matches_address_pattern (param_walletAddress req) ->
  0 <= (Js.parseInt_or (query_page req) 1 - 1) * Js.parseInt_or (query_limit req) 10 ->
  exists nfts pg meta wd',
    getUserNFTs rt req wd
    = (Returned {| http_status := 200; success := true; message := None;
                   payload := NFTPage nfts pg meta |}, wd') /\
    (nfts = [] -> firstNFTDate meta = None /\ latestNFTDate meta = None) /\
    (nfts <> [] ->
     exists newest oldest,
       In newest nfts /\ In oldest nfts /\
       latestNFTDate meta = Some (mintedAt (nft newest)) /\
       firstNFTDate meta = Some (mintedAt (nft oldest)) /\
       forall e, In e nfts ->
         createdAt (nft oldest) <= createdAt (nft e) <= createdAt (nft newest)).
Proof.
  intros Haddr Hskip.
  pose proof (invalid_wallet_false _ Haddr) as Hv.
  destruct (getUserNFTs_cases rt req wd) as [(Hi & _)|[(_ & Hneg & _)|(_ & _ & Hrun)]];
    cbv zeta in *; [congruence | lia |].
  do 4 eexists. split; [exact Hrun|]. cbn [firstNFTDate latestNFTDate].
  unfold page_records.
  pose proof (page_strongly_sorted (Js.toLowerCase (param_walletAddress req))
                ((Js.parseInt_or (query_page req) 1 - 1) * Js.parseInt_or (query_limit req) 10)
                (Js.parseInt_or (query_limit req) 10) (docs wd)) as Hss.
  destruct (Collection.apply_limit _ _) as [|x r].
  - split; [intros _; split; reflexivity | intros H; contradiction H; reflexivity].
  - split; [intros H; discriminate H|]. intros _.
    set (f := fun d => enrich rt (Collection.select_public d)).
    rewrite map_map. fold f.
    exists (f x), (f (last (x :: r) x)).
    split; [left; reflexivity|].
    split.
    { apply in_map. destruct (exists_last (l := x :: r) ltac:(discriminate)) as (l' & a & E).
      rewrite E, last_last, <- E. rewrite E. apply in_or_app. right. left. reflexivity. }
    split; [reflexivity|].
    split.
    { rewrite (last_map_Some f x r). reflexivity. }
    intros e He. apply in_map_iff in He. destruct He as (d & <- & Hd).
    pose proof (sorted_extremes x r Hss d Hd) as Hb. exact Hb.
Qed.

Lemma getUserNFTs_summary_dates_witness :
  exists nfts pg meta wd',
    getUserNFTs (Sample.rt 1700000000200)
      (mkListRequest Sample.wallet (Some "2") (Some "10")) Sample.fifteen
    = (Returned {| http_status := 200; success := true; message := None;
                   payload := NFTPage nfts pg meta |}, wd') /\
    latestNFTDate meta = Some (1700000000000 + 52) /\
    firstNFTDate meta = Some (1700000000000 + 48).
Proof.
  destruct (getUserNFTs_summary_dates (Sample.rt 1700000000200)
              (mkListRequest Sample.wallet (Some "2") (Some "10")) Sample.fifteen)
    as (nfts & pg & meta & wd' & Hrun & _).
  - apply address_re_iff. vm_compute. reflexivity.
  - vm_compute. discriminate.
  - exists nfts, pg, meta, wd'. split; [exact Hrun|].
    vm_compute in Hrun. injection Hrun as _ _ <- _. vm_compute. split; reflexivity.
Defined.

(* ===================================================================== *)
(** * Saving, then listing *)
(* ===================================================================== *)

(** X11: After an accepted payload with a fresh hash is saved for an owner who
    had no confirmed record, a default list request for that owner, in any
    spelling that is well formed and lowercases to the stored address,
    returns exactly the written record (without its analytics fields), with
    [totalCount] and [totalPages] both 1. *)
Theorem save_then_list_returns_the_record
    (rt rt2 : Runtime) (req : SaveRequest) (wd : World) (owner : string) :
  payload_accepted rt req ->
  (forall x, In x (docs wd) -> transactionHash x <> transactionHash (written_document rt req)) ->
  filter (Collection.owned_confirmed (walletAddress (written_document rt req))) (docs wd) = [] ->
  matches_address_pattern owner ->
  Js.toLowerCase owner = walletAddress (written_document rt req) ->
  exists r1 wd1 pg meta wd2,
    saveNFT rt req wd = (Returned r1, wd1) /\
    payload r1 = SavedRecord (written_document rt req) 1 true /\
    getUserNFTs rt2 (mkListRequest owner None None) wd1
    = (Returned {| http_status := 200; success := true; message := None;
                   payload :=
                     NFTPage [enrich rt2 (Collection.select_public (written_document rt req))]
                       pg meta |}, wd2) /\
    totalCount pg = 1 /\ totalPages pg = 1 /\
    hasNextPage pg = false /\ hasPrevPage pg = false.
Proof.
  intros Hacc Hfresh Hnone Howner Hlow.
  destruct (saveNFT_accepted_run rt req wd Hacc Hfresh) as (w & h & Hw & Hh & _ & Hrun).
  pose proof (written_document_wallet rt req w Hw) as Hdw.
  assert (filter (Collection.owned_confirmed (Js.toLowerCase w))
            (docs wd ++ [written_document rt req]) = [written_document rt req]) as Hf.
  { rewrite filter_app, <- Hdw, Hnone. cbn [filter app].
    assert (Collection.owned_confirmed (walletAddress (written_document rt req))
              (written_document rt req) = true) as ->
      by (apply owned_confirmed_spec; split; reflexivity).
    reflexivity. }
  rewrite Hf in Hrun. cbn [List.length Z.of_nat] in Hrun.
  do 2 eexists.
  set (wd1 := mkWorld (docs wd ++ [written_document rt req])
                (((queries wd ++ [QFindOne (Js.toLowerCase h)])
                  ++ [QInsert (written_document rt req)]) ++ [QCount (Js.toLowerCase w)])) in *.
  destruct (getUserNFTs_cases rt2 (mkListRequest owner None None) wd1)
    as [(Hi & _)|[(_ & Hneg & _)|(_ & _ & Hrun2)]]; cbv zeta in *.
  - cbn [param_walletAddress] in Hi. rewrite (invalid_wallet_false _ Howner) in Hi.
    discriminate Hi.
  - vm_compute in Hneg. discriminate Hneg.
  - cbn [param_walletAddress query_page query_limit] in Hrun2.
    rewrite Hlow, Hdw in Hrun2.
    unfold page_records in Hrun2. unfold wd1 in Hrun2. cbn [docs] in Hrun2.
    rewrite Hf in Hrun2.
    do 3 eexists. split; [exact Hrun|]. split; [reflexivity|].
    split; [exact Hrun2|]. cbn. repeat split.
Qed.

Lemma save_then_list_returns_the_record_witness :
  exists e pg meta wd2,
    getUserNFTs (Sample.rt 1700000002000) (mkListRequest Sample.wallet2 None None)
      (snd (saveNFT (Sample.rt 1700000000999)
              (Sample.request Sample.wallet2 (Some (JStr (Sample.hash_of "F")))) Sample.fifteen))
    = (Returned {| http_status := 200; success := true; message := None;
                   payload := NFTPage [e] pg meta |}, wd2) /\
    transactionHash (nft e) = Sample.hash_of "f".
Proof.
  destruct (save_then_list_returns_the_record (Sample.rt 1700000000999) (Sample.rt 1700000002000)
              (Sample.request Sample.wallet2 (Some (JStr (Sample.hash_of "F"))))
              Sample.fifteen Sample.wallet2)
    as (r1 & wd1 & pg & meta & wd2 & Hrun1 & _ & Hrun2 & _).
  - apply sample_request_accepted; vm_compute; reflexivity.
  - intros x Hx. vm_compute in Hx.
    repeat (destruct Hx as [<-|Hx]; [vm_compute; discriminate|]). destruct Hx.
  - vm_compute. reflexivity.
  - apply address_re_iff. vm_compute. reflexivity.
  - vm_compute. reflexivity.
  - rewrite Hrun1. cbn [snd]. do 4 eexists. split; [exact Hrun2|].
    vm_compute. reflexivity.
Defined.



(* ===================================================================== *)
(** * Further properties of [getEventStats] *)
(* ===================================================================== *)

Section StatsSpan.

Import Collection.

Lemma span_other (l : list NFT) (d : NFT) (g : Group) :
  g_id g <> eventName d -> span_of l g -> span_of (l ++ [d]) g.
Proof.
  intros Hne H. unfold span_of in *. rewrite of_event_snoc.
  destruct (String.eqb_spec (eventName d) (g_id g)) as [E|_]; [congruence|].
  rewrite app_nil_r. exact H.
Qed.

Lemma span_update (l : list NFT) (d : NFT) (g : Group) :
  g_id g = eventName d -> span_of l g -> span_of (l ++ [d]) (update_group g d).
Proof.
  intros He (Hb & (dmin & Hmin & Emin) & (dmax & Hmax & Emax)).
  unfold span_of. cbn [g_id g_firstMint g_lastMint update_group].
  rewrite of_event_snoc, He, String.eqb_refl. rewrite <- He.
  split; [|split].
  - intros x Hx. apply in_app_iff in Hx. destruct Hx as [Hx|[<-|[]]].
    + specialize (Hb x Hx). lia.
    + lia.
  - destruct (Z.min_spec (g_firstMint g) (mintedAt d)) as [[_ ->]|[_ ->]].
    + exists dmin. split; [apply in_or_app; left; exact Hmin | exact Emin].
    + exists d. split; [apply in_or_app; right; left; reflexivity | reflexivity].
  - destruct (Z.max_spec (g_lastMint g) (mintedAt d)) as [[_ ->]|[_ ->]].
    + exists d. split; [apply in_or_app; right; left; reflexivity | reflexivity].
    + exists dmax. split; [apply in_or_app; left; exact Hmax | exact Emax].
Qed.

Lemma span_new (l : list NFT) (d : NFT) :
  of_event (eventName d) l = [] -> span_of (l ++ [d]) (new_group d).
Proof.
  intros He. unfold span_of. cbn [g_id g_firstMint g_lastMint new_group].
  rewrite of_event_snoc, He, String.eqb_refl. cbn [app].
  split; [|split].
  - intros x [<-|[]]. lia.
  - exists d. split; [left; reflexivity | reflexivity].
  - exists d. split; [left; reflexivity | reflexivity].
Qed.

Lemma accumulate_span (l : list NFT) (d : NFT) (gs : list Group) :
  NoDup (map g_id gs) ->
  Forall (span_of l) gs ->
  (~ In (eventName d) (map g_id gs) -> of_event (eventName d) l = []) ->
  Forall (span_of (l ++ [d])) (accumulate d gs).
Proof.
  induction gs as [|g r IH]; simpl; intros Hnd Hall Hnew.
  - constructor; [|constructor]. apply span_new. apply Hnew. tauto.
  - inversion Hnd as [|? ? Hnotin Hr]; subst.
    inversion Hall as [|? ? Hg Hrest]; subst.
    destruct (String.eqb_spec (g_id g) (eventName d)) as [E|E].
    + constructor; [apply span_update; assumption|].
      rewrite Forall_forall in *. intros g' Hg'.
      apply span_other; [|apply Hrest; exact Hg'].
      intros E'. apply Hnotin. rewrite E, <- E'. apply in_map. exact Hg'.
    + constructor; [apply span_other; assumption|].
      apply IH; try assumption. intros Hn. apply Hnew. intros [H|H]; [congruence | tauto].
Qed.

Lemma group_stage_span (l : list NFT) : Forall (span_of l) (group_stage l).
Proof.
  induction l as [|d l IH] using rev_ind; [constructor|].
  rewrite group_stage_snoc.
  destruct (group_stage_groups l) as (Hnd & _ & Hcov).
  apply accumulate_span; try assumption.
  intros Hn. apply of_event_nil_iff. intros d' Hd' E.
  apply Hn. rewrite <- E. apply Hcov. exact Hd'.
Qed.

(** ** Counting through the buckets *)

Lemma sum_Z_cons (a : Z) (l : list Z) : sum_Z (a :: l) = a + sum_Z l.
Proof. reflexivity. Qed.

Lemma indicator_sum_absent (k : string) (ks : list string) :
  ~ In k ks -> sum_Z (map (fun k' => if String.eqb k k' then 1 else 0) ks) = 0.
Proof.
  induction ks as [|a r IH]; simpl; intros H; [reflexivity|].
  destruct (String.eqb_spec k a) as [E|_]; [exfalso; apply H; left; congruence|].
  rewrite IH; [reflexivity|]. intros Hin. apply H. right. exact Hin.
Qed.

Lemma indicator_sum_present (k : string) (ks : list string) :
  NoDup ks -> In k ks -> sum_Z (map (fun k' => if String.eqb k k' then 1 else 0) ks) = 1.
Proof.
  induction 1 as [|a r Hnotin Hnd IH]; simpl; intros Hin; [destruct Hin|].
  destruct (String.eqb_spec k a) as [E|E].
  - subst a. rewrite (indicator_sum_absent k r Hnotin). reflexivity.
  - destruct Hin as [Hin|Hin]; [congruence|]. rewrite (IH Hin). reflexivity.
Qed.

(** Buckets with distinct names that cover a list partition it. *)
Lemma counts_partition (ks : list string) (l : list NFT) :
  NoDup ks ->
  (forall d, In d l -> In (eventName d) ks) ->
  sum_Z (map (fun k => Z.of_nat (List.length (of_event k l))) ks) = Z.of_nat (List.length l).
Proof.
  intros Hnd. induction l as [|x r IH]; intros Hcov.
  - clear Hnd Hcov. induction ks as [|a ks IHk]; simpl; [reflexivity | exact IHk].
  - assert (forall ks',
              sum_Z (map (fun k => Z.of_nat (List.length (of_event k (x :: r)))) ks')
              = sum_Z (map (fun k' => if String.eqb (eventName x) k' then 1 else 0) ks')
                + sum_Z (map (fun k => Z.of_nat (List.length (of_event k r))) ks')) as Hsplit.
    { induction ks' as [|a ks' IHk]; [reflexivity|].
      cbn [map]. rewrite !sum_Z_cons, IHk. unfold of_event. cbn [filter].
      destruct (String.eqb (eventName x) a); cbn [List.length]; lia. }
    rewrite Hsplit, IH by (intros d Hd; apply Hcov; right; exact Hd).
    rewrite (indicator_sum_present (eventName x) ks Hnd (Hcov x (or_introl eq_refl))).
    simpl List.length. lia.
Qed.

Lemma nodup_length_le (l : list string) :
  (List.length (nodup string_dec l) <= List.length l)%nat.
Proof.
  induction l as [|a r IH]; simpl; [lia|].
  destruct (in_dec string_dec a r); simpl; lia.
Qed.

End StatsSpan.

(** X13: Each row of the statistics carries, as [firstMint] and [lastMint], the
    earliest and the latest [mintedAt] among the confirmed records of its
    event: they bound every such record and each is the date of one. *)
Theorem getEventStats_mint_span (rt : Runtime) (wd : World) :
  exists t wd',
    getEventStats rt wd
    = (Returned {| http_status := 200; success := true; message := None;
                   payload := Stats t |}, wd') /\
    Forall
      (fun e =>
         (forall d, In d (docs wd) -> status d = confirmed ->
                    eventName d = Collection.stat_eventName e ->
                    Collection.firstMint e <= mintedAt d <= Collection.lastMint e) /\
         (exists d, In d (docs wd) /\ status d = confirmed /\
                    eventName d = Collection.stat_eventName e /\
                    mintedAt d = Collection.firstMint e) /\
         (exists d, In d (docs wd) /\ status d = confirmed /\
                    eventName d = Collection.stat_eventName e /\
                    mintedAt d = Collection.lastMint e))
      (events t).
Proof.
  set (l := filter Collection.is_confirmed (docs wd)).
  assert (forall k d, In d (of_event k l)
                      <-> In d (docs wd) /\ status d = confirmed /\ eventName d = k) as Hmem.
  { intros k d. unfold of_event, l. rewrite !filter_In. unfold Collection.is_confirmed.
    rewrite Status_eqb_eq, String.eqb_eq. tauto. }
  do 2 eexists. split.
  { unfold getEventStats, try_catch, getEventStats_try, Model.getEventStats,
      Collection.aggregate_event_stats, bind, issue, read_docs, ret. cbn [docs queries].
    fold l. rewrite fold_add_event. reflexivity. }
  cbn [events]. apply Forall_forall. intros e He.
  apply in_map_iff in He. destruct He as (g & <- & Hg).
  pose proof (group_stage_span l) as Hall. rewrite Forall_forall in Hall.
  destruct (Hall g Hg) as (Hb & (dmin & Hmin & Emin) & (dmax & Hmax & Emax)).
  cbn [Collection.project_stage Collection.stat_eventName Collection.firstMint Collection.lastMint].
  split; [|split].
  - intros d Hd Hs Hev. apply Hb. apply Hmem. tauto.
  - exists dmin. apply Hmem in Hmin. tauto.
  - exists dmax. apply Hmem in Hmax. tauto.
Qed.

(** X14: The grand total [totalMints] is the number of confirmed records of the
    collection; every row counts at least one mint and one owner and no
    more owners than mints, so that [totalUniqueUsers] lies between the
    number of rows and [totalMints]. *)
Theorem getEventStats_grand_totals (rt : Runtime) (wd : World) :
  exists t wd',
    getEventStats rt wd
    = (Returned {| http_status := 200; success := true; message := None;
                   payload := Stats t |}, wd') /\
    total_totalMints t
    = Z.of_nat (List.length (filter Collection.is_confirmed (docs wd))) /\
    Forall (fun e => 1 <= Collection.uniqueUserCount e <= Collection.totalMints e) (events t) /\
    Z.of_nat (List.length (events t)) <= totalUniqueUsers t <= total_totalMints t.
Proof.
  set (l := filter Collection.is_confirmed (docs wd)).
  destruct (group_stage_groups l) as (Hnd & Hall & Hcov).
  do 2 eexists. split.
  { unfold getEventStats, try_catch, getEventStats_try, Model.getEventStats,
      Collection.aggregate_event_stats, bind, issue, read_docs, ret. cbn [docs queries].
    fold l. rewrite fold_add_event. reflexivity. }
  cbn [total_totalMints totalUniqueUsers events].
  assert (Forall (fun e => 1 <= Collection.uniqueUserCount e <= Collection.totalMints e)
            (map Collection.project_stage (Collection.group_stage l))) as Hrows.
  { apply Forall_forall. intros e He. apply in_map_iff in He. destruct He as (g & <- & Hg).
    rewrite Forall_forall in Hall. pose proof (Hall g Hg) as Hgo.
    pose proof (group_unique_count l g Hgo) as Hu.
    destruct Hgo as (Hn & Hne & Hndu & Hin).
    cbn [Collection.project_stage Collection.uniqueUserCount Collection.totalMints].
    rewrite Hn, Hu. unfold distinct_owners.
    pose proof (nodup_length_le (map walletAddress (of_event (Collection.g_id g) l))) as Hle.
    rewrite length_map in Hle.
    destruct (of_event (Collection.g_id g) l) as [|d r] eqn:E; [contradiction|].
    assert (List.length (nodup string_dec (map walletAddress (d :: r))) <> 0%nat) as Hpos.
    { intros H0. apply length_zero_iff_nil in H0.
      assert (In (walletAddress d) (nodup string_dec (map walletAddress (d :: r)))) as Hi
        by (apply nodup_In; left; reflexivity).
      rewrite H0 in Hi. exact Hi. }
    lia. }
  assert (sum_Z (map Collection.totalMints
                   (map Collection.project_stage (Collection.group_stage l)))
          = Z.of_nat (List.length l)) as Htot.
  { rewrite <- (counts_partition (map Collection.g_id (Collection.group_stage l)) l Hnd Hcov).
    rewrite !map_map. f_equal. apply map_ext_in. intros g Hg.
    rewrite Forall_forall in Hall. destruct (Hall g Hg) as (Hn & _). exact Hn. }
  split; [simpl; exact Htot|]. split; [exact Hrows|].
  rewrite !Z.add_0_l.
  clear Htot. induction Hrows as [|e r He Hr IH]; simpl; [lia|].
  simpl in IH. lia.
Qed.

(* ===================================================================== *)
(** * Paging through an owner's records *)
(* ===================================================================== *)

Lemma parse_digits_no_digit (radix : Z) (c : ascii) (r : string) :
  radix <= 10 -> Js.is_digit c = false -> Js.parse_digits radix (String c r) false 0 = None.
Proof.
  intros Hr Hc. cbn [Js.parse_digits]. unfold Js.digit_value. rewrite Hc.
  destruct (Js.is_lower c) eqn:El.
  - unfold Js.is_lower in El. apply andb_true_iff in El. destruct El as [E1 _].
    apply Nat.leb_le in E1.
    destruct (Z.ltb_spec (Z.of_nat (nat_of_ascii c) - 87) radix); [lia | reflexivity].
  - destruct (Js.is_upper c) eqn:Eu; [|reflexivity].
    unfold Js.is_upper in Eu. apply andb_true_iff in Eu. destruct Eu as [E1 _].
    apply Nat.leb_le in E1.
    destruct (Z.ltb_spec (Z.of_nat (nat_of_ascii c) - 55) radix); [lia | reflexivity].
Qed.

(** A value that does not begin, after white space and an optional sign,
    with a decimal digit is not a number for [parseInt]. *)
Lemma parseInt_not_a_number (s : string) :
  starts_with_digit s = false -> Js.parseInt (Some s) = None.
Proof.
  unfold starts_with_digit, Js.parseInt.
  destruct (Js.skip_spaces s) as [|c r]; [reflexivity|].
  assert (forall c' r', Js.is_digit c' = false ->
            match
              (let '(radix, s3) :=
                 match String c' r' with
                 | String "0" (String "x" r0) => (16, r0)
                 | String "0" (String "X" r0) => (16, r0)
                 | _ => (10, String c' r')
                 end in
               Js.parse_digits radix s3 false 0)
            with Some _ => false | None => true end = true) as Hnd.
  { intros c' r' Hc'.
    assert (c' <> "0"%char) as Hz by (intros ->; discriminate Hc').
    destruct c' as [[] [] [] [] [] [] [] []]; try (exfalso; apply Hz; reflexivity);
      rewrite parse_digits_no_digit; try reflexivity; try lia; exact Hc'. }
  destruct (Ascii.eqb_spec c "-") as [->|Hm].
  { destruct r as [|c' r']; [intros _; reflexivity|]. intros Hc'.
    specialize (Hnd c' r' Hc').
    destruct c' as [[] [] [] [] [] [] [] []]; try discriminate Hc';
      cbv beta iota zeta in Hnd |- *;
      match goal with
      | |- match ?X with _ => _ end = None => destruct X; [discriminate Hnd | reflexivity]
      end. }
  destruct (Ascii.eqb_spec c "+") as [->|Hp].
  { destruct r as [|c' r']; [intros _; reflexivity|]. intros Hc'.
    specialize (Hnd c' r' Hc').
    destruct c' as [[] [] [] [] [] [] [] []]; try discriminate Hc';
      cbv beta iota zeta in Hnd |- *;
      match goal with
      | |- match ?X with _ => _ end = None => destruct X; [discriminate Hnd | reflexivity]
      end. }
  intros Hc.
  assert (Js.is_digit c = false) as Hc'.
  { destruct c as [[] [] [] [] [] [] [] []]; try exact Hc;
      try (exfalso; apply Hm; reflexivity); try (exfalso; apply Hp; reflexivity). }
  specialize (Hnd c r Hc').
  destruct c as [[] [] [] [] [] [] [] []]; try discriminate Hc';
    try (exfalso; apply Hm; reflexivity); try (exfalso; apply Hp; reflexivity);
    cbv beta iota zeta in Hnd |- *;
    match goal with
    | |- match ?X with _ => _ end = None => destruct X; [discriminate Hnd | reflexivity]
    end.
Qed.

(** X15: A [page] parameter for which [parseInt] gives [NaN] or zero is
    replaced by 1, and such a [limit] by 10, each on its own: the answer
    and the operations sent are those of the request without that
    parameter, the other parameter kept. A parameter that is missing, or
    that does not begin, after white space and an optional sign, with a
    decimal digit, is such a parameter, and so are [0], [-0] and [00]. *)
Theorem getUserNFTs_query_defaults (rt : Runtime) (req : ListRequest) (wd : World) :
  (falls_back (query_page req) ->
   getUserNFTs rt req wd
   = getUserNFTs rt (mkListRequest (param_walletAddress req) None (query_limit req)) wd) /\
  (falls_back (query_limit req) ->
   getUserNFTs rt req wd
   = getUserNFTs rt (mkListRequest (param_walletAddress req) (query_page req) None) wd) /\
  falls_back None /\
  (forall s, starts_with_digit s = false -> falls_back (Some s)) /\
  falls_back (Some "0") /\ falls_back (Some "-0") /\ falls_back (Some "00").
Proof.
  split; [|split; [|split; [|split; [|split; [|split]]]]].
  - intros Hp.
    assert (Js.parseInt_or (query_page req) 1 = 1) as Ep
      by (unfold Js.parseInt_or; destruct Hp as [-> | ->]; reflexivity).
    unfold getUserNFTs, getUserNFTs_try. cbn [param_walletAddress query_page query_limit].
    rewrite Ep. reflexivity.
  - intros Hl.
    assert (Js.parseInt_or (query_limit req) 10 = 10) as El
      by (unfold Js.parseInt_or; destruct Hl as [-> | ->]; reflexivity).
    unfold getUserNFTs, getUserNFTs_try. cbn [param_walletAddress query_page query_limit].
    rewrite El. reflexivity.
  - left. reflexivity.
  - intros s Hs. left. apply parseInt_not_a_number. exact Hs.
  - right. reflexivity.
  - right. reflexivity.
  - right. reflexivity.
Qed.

Lemma getUserNFTs_query_defaults_witness :
  getUserNFTs (Sample.rt 1700000000200)
    (mkListRequest Sample.wallet (Some "abc") (Some "7")) Sample.fifteen
  = getUserNFTs (Sample.rt 1700000000200)
      (mkListRequest Sample.wallet None (Some "7")) Sample.fifteen /\
  getUserNFTs (Sample.rt 1700000000200)
    (mkListRequest Sample.wallet (Some "2") (Some "0")) Sample.fifteen
  = getUserNFTs (Sample.rt 1700000000200)
      (mkListRequest Sample.wallet (Some "2") None) Sample.fifteen.
Proof.
  split.
  - apply (getUserNFTs_query_defaults (Sample.rt 1700000000200)
             (mkListRequest Sample.wallet (Some "abc") (Some "7")) Sample.fifteen).
    left. reflexivity.
  - apply (getUserNFTs_query_defaults (Sample.rt 1700000000200)
             (mkListRequest Sample.wallet (Some "2") (Some "0")) Sample.fifteen).
    right. reflexivity.
Defined.

Section Chunks.

Lemma chunks_concat {A} (k n : nat) (l : list A) :
  (0 < k)%nat -> (List.length l <= n * k)%nat ->
  List.concat (map (fun i => firstn k (skipn (i * k) l)) (seq 0 n)) = l.
Proof.
  intros Hk. revert l. induction n as [|n IH]; intros l Hl.
  - destruct l; [reflexivity | simpl in Hl; lia].
  - cbn [seq map List.concat]. rewrite <- seq_shift, map_map.
    change (0 * k)%nat with 0%nat. cbn [skipn].
    transitivity (firstn k l ++ skipn k l)%list; [|apply firstn_skipn]. f_equal.
    etransitivity; [|apply (IH (skipn k l)); rewrite length_skipn; simpl in Hl; lia].
    f_equal. apply map_ext. intros i.
    rewrite skipn_skipn. f_equal. f_equal. simpl. lia.
Qed.

Lemma listed_page (rt : Runtime) (req : ListRequest) (wd : World) :
  matches_address_pattern (param_walletAddress req) ->
  0 <= (Js.parseInt_or (query_page req) 1 - 1) * Js.parseInt_or (query_limit req) 10 ->
  listed rt req wd
  = page_records (Js.toLowerCase (param_walletAddress req))
      (Js.parseInt_or (query_page req) 1) (Js.parseInt_or (query_limit req) 10) (docs wd).
Proof.
  intros Haddr Hskip. pose proof (invalid_wallet_false _ Haddr) as Hv.
  unfold listed.
  destruct (getUserNFTs_cases rt req wd) as [(Hi & _)|[(_ & Hneg & _)|(_ & _ & Hrun)]];
    cbv zeta in *; [congruence | lia |].
  rewrite Hrun. cbn [fst payload]. rewrite map_map. cbn [nft enrich]. apply map_id.
Qed.

End Chunks.

(** Records with pairwise distinct [createdAt] have one order newest first. *)
Lemma sorted_perm_unique (l1 l2 : list NFT) :
  NoDup (map createdAt l1) ->
  StronglySorted newer_first l1 ->
  StronglySorted newer_first l2 ->
  Permutation l1 l2 ->
  l1 = l2.
Proof.
  revert l2. induction l1 as [|x r1 IH]; intros l2 Hnd Hs1 Hs2 Hp.
  - apply Permutation_nil in Hp. symmetry. exact Hp.
  - destruct l2 as [|y r2].
    { apply Permutation_sym, Permutation_nil in Hp. discriminate Hp. }
    cbn [map] in Hnd. apply NoDup_cons_iff in Hnd. destruct Hnd as [Hx Hnd].
    apply StronglySorted_inv in Hs1. destruct Hs1 as [Hs1 Hx1].
    apply StronglySorted_inv in Hs2. destruct Hs2 as [Hs2 Hy2].
    rewrite Forall_forall in Hx1, Hy2.
    assert (x = y) as Exy.
    { assert (In y (x :: r1)) as Hy
        by (apply (Permutation_in _ (Permutation_sym Hp)); left; reflexivity).
      assert (In x (y :: r2)) as Hx'
        by (apply (Permutation_in _ Hp); left; reflexivity).
      destruct Hy as [E|Hy]; [exact E|].
      destruct Hx' as [E|Hx']; [symmetry; exact E|].
      exfalso. apply Hx.
      pose proof (Hx1 y Hy) as H1. pose proof (Hy2 x Hx') as H2.
      unfold newer_first in H1, H2.
      replace (createdAt x) with (createdAt y) by lia.
      apply in_map. exact Hy. }
    subst y. f_equal. apply IH; try assumption.
    apply Permutation_cons_inv in Hp. exact Hp.
Qed.

(** X16: When the confirmed records of an owner (the stored records whose
    address is the lowercased owner and whose status is [confirmed]) have
    pairwise distinct [createdAt], the pages of that owner, requested one
    after the other with a fixed positive [limit] up to the last page, are
    these records newest first, each exactly once: nothing is skipped and
    nothing repeated between pages. Offsets stay at most
    [Number.MAX_SAFE_INTEGER]. *)
Theorem pages_partition_the_records
    (rt : Runtime) (wd : World) (owner : string) (lim : option string) (limit : Z)
    (n : nat) (pagestr : nat -> option string) (ordered : list NFT) :
  matches_address_pattern owner ->
  Js.parseInt_or lim 10 = limit ->
  0 < limit ->
  Z.of_nat n * limit <= max_safe_integer ->
  NoDup (map createdAt
           (filter (confirmed_record_ofb (Js.toLowerCase owner)) (docs wd))) ->
  Z.of_nat n
  = Js.ceil_div
      (Z.of_nat (List.length
         (filter (confirmed_record_ofb (Js.toLowerCase owner)) (docs wd)))) limit ->
  (forall i, (i < n)%nat -> Js.parseInt_or (pagestr i) 1 = Z.of_nat i + 1) ->
  Permutation ordered (filter (confirmed_record_ofb (Js.toLowerCase owner)) (docs wd)) ->
  Sorted newer_first ordered ->
  List.concat (map (fun i => listed rt (mkListRequest owner (pagestr i) lim) wd) (seq 0 n))
  = map Collection.select_public ordered.
Proof.
  intros Haddr Hlim Hpos _ Hnd Hn Hpages Hperm Hsorted.
  rewrite <- owned_confirmed_records in Hnd, Hn, Hperm.
  set (sorted := Collection.sort_desc
                   (filter (Collection.owned_confirmed (Js.toLowerCase owner)) (docs wd))).
  assert (ordered = sorted) as ->.
  { apply sorted_perm_unique.
    - apply (Permutation_NoDup (l := map createdAt
               (filter (Collection.owned_confirmed (Js.toLowerCase owner)) (docs wd))));
        [|exact Hnd].
      apply Permutation_map, Permutation_sym. exact Hperm.
    - apply Sorted_StronglySorted; [|exact Hsorted].
      intros a b c Hab Hbc. unfold newer_first in *. lia.
    - apply sort_desc_strongly.
    - etransitivity; [exact Hperm|]. apply Permutation_sym, sort_desc_perm. }
  pose proof (ceil_div_bounds
                (Z.of_nat (List.length
                   (filter (Collection.owned_confirmed (Js.toLowerCase owner)) (docs wd))))
                limit Hpos) as Hb.
  rewrite <- Hn in Hb.
  assert (List.length sorted <= n * Z.to_nat limit)%nat as Hlen.
  { unfold sorted. rewrite sort_desc_length. nia. }
  transitivity
    (map Collection.select_public
       (List.concat
          (map (fun i => firstn (Z.to_nat limit) (skipn (i * Z.to_nat limit) sorted)) (seq 0 n))));
    [|f_equal; apply chunks_concat; [lia | exact Hlen]].
  rewrite concat_map, map_map. f_equal.
  apply map_ext_in. intros i Hi. apply in_seq in Hi.
  rewrite listed_page; cbn [param_walletAddress query_page query_limit];
    rewrite ?Hlim, ?(Hpages i ltac:(lia)); [|exact Haddr | nia].
  unfold page_records. fold sorted. unfold Collection.apply_limit.
  destruct (Z.eqb_spec limit 0) as [E|_]; [lia|].
  rewrite Z.abs_eq by lia. do 3 f_equal. nia.
Qed.

Lemma pages_partition_the_records_witness :
  List.length (docs sample_mixed) = 17%nat /\
  (listed (Sample.rt 1700000000200)
     (mkListRequest Sample.wallet (Some "1") (Some "10")) sample_mixed
   ++ listed (Sample.rt 1700000000200)
        (mkListRequest Sample.wallet (Some "2") (Some "10")) sample_mixed)%list
  = map Collection.select_public
      (Collection.sort_desc
         (filter (confirmed_record_ofb (Js.toLowerCase Sample.wallet))
            (docs sample_mixed))).
Proof.
  split; [reflexivity|].
  pose proof (pages_partition_the_records (Sample.rt 1700000000200) sample_mixed
                Sample.wallet (Some "10") 10 2
                (fun i => match i with O => Some "1" | _ => Some "2" end)
                (Collection.sort_desc
                   (filter (confirmed_record_ofb (Js.toLowerCase Sample.wallet))
                      (docs sample_mixed)))) as H.
  cbn [seq map List.concat] in H. rewrite app_nil_r in H. apply H.
  - apply address_re_iff. vm_compute. reflexivity.
  - vm_compute. reflexivity.
  - lia.
  - unfold max_safe_integer. lia.
  - match goal with
    | |- NoDup ?l =>
        assert (nodup Z.eq_dec l = l) as E by (vm_compute; reflexivity);
        rewrite <- E; apply NoDup_nodup
    end.
  - vm_compute. reflexivity.
  - intros i Hi. destruct i as [|[|i]]; [reflexivity | reflexivity | lia].
  - apply sort_desc_perm.
  - apply sort_desc_sorted.
Defined.

(* ===================================================================== *)
(** * Values the template literal cannot print *)
(* ===================================================================== *)

(** X17: A request whose required properties are truthy and whose hash is a
    string that is not stored, but whose [ipfsCid] is an object with an own
    [toString] property (or an array that holds one), is answered 500
    [Failed to save NFT]: the template literal of [imageUrl] throws a
    [TypeError] before the document is built, so the schema is not reached
    and nothing is written; the duplicate check is the only operation
    sent. *)
Theorem saveNFT_unprintable_cid_is_500
    (rt : Runtime) (req : SaveRequest) (wd : World) (h : string) (c : json) :
  some_required_falsy req = false ->
  body_transactionHash req = Some (JStr h) ->
  (forall x, In x (docs wd) -> transactionHash x <> Js.toLowerCase h) ->
  body_ipfsCid req = Some c ->
  to_primitive_throws c = true ->
  saveNFT rt req wd
  = (Returned {| http_status := 500; success := false;
                 message := Some "Failed to save NFT";
                 payload := ErrorText
                   (shown_error rt (TypeError "Cannot convert object to primitive value")) |},
     mkWorld (docs wd) (queries wd ++ [QFindOne (Js.toLowerCase h)])).
Proof.
  intros Hall Hh Hfresh Hc Hthrow.
  assert (find (fun x => String.eqb (transactionHash x) (Js.toLowerCase h)) (docs wd) = None)
    as Hfind.
  { destruct (find _ (docs wd)) as [e|] eqn:E; [|reflexivity].
    apply find_some in E. destruct E as [Hin Heq]. apply String.eqb_eq in Heq.
    exfalso. exact (Hfresh e Hin Heq). }
  pose proof (saveNFT_fresh rt req wd h Hall Hh Hfind) as Hrun. cbv zeta in Hrun.
  assert (nftData_error req
          = Some (TypeError "Cannot convert object to primitive value")) as He.
  { unfold nftData_error. rewrite Hc, Hthrow.
    destruct (opt_chain (body_eventData req) "mintedAt") as [v|]; [|reflexivity].
    destruct (truthy (Some v) && to_primitive_throws v); reflexivity. }
  rewrite He in Hrun. exact Hrun.
Qed.

Lemma saveNFT_unprintable_cid_is_500_witness :
  saveNFT (Sample.rt 1700000000999)
    {| body_walletAddress := Some (JStr Sample.wallet);
       body_ipfsCid := Some (JObj [("toString", JNull)]);
       body_metadataUri := Some (JStr ("ipfs://" ++ Sample.cid));
       body_tokenId := Some (JStr "1");
       body_contractAddress := Some (JStr Sample.contract);
       body_transactionHash := Some (JStr (Sample.hash_of "f"));
       body_eventData := None;
       header_userAgent := None;
       req_ip := None;
       remoteAddress := None |} Sample.fifteen
  = (Returned {| http_status := 500; success := false;
                 message := Some "Failed to save NFT";
                 payload := ErrorText "Internal server error" |},
     mkWorld (docs Sample.fifteen)
       (queries Sample.fifteen ++ [QFindOne (Js.toLowerCase (Sample.hash_of "f"))])).
Proof.
  apply (saveNFT_unprintable_cid_is_500 (Sample.rt 1700000000999)
    {| body_walletAddress := Some (JStr Sample.wallet);
       body_ipfsCid := Some (JObj [("toString", JNull)]);
       body_metadataUri := Some (JStr ("ipfs://" ++ Sample.cid));
       body_tokenId := Some (JStr "1");
       body_contractAddress := Some (JStr Sample.contract);
       body_transactionHash := Some (JStr (Sample.hash_of "f"));
       body_eventData := None;
       header_userAgent := None;
       req_ip := None;
       remoteAddress := None |} Sample.fifteen
           (Sample.hash_of "f") (JObj [("toString", JNull)])).
  - reflexivity.
  - reflexivity.
  - intros x Hx. vm_compute in Hx.
    repeat (destruct Hx as [<-|Hx]; [vm_compute; discriminate|]). destruct Hx.
  - reflexivity.
  - reflexivity.
Defined.
